(** * Shallow embedding of gooctranspoapi (OC Transpo API client, Go)

    The development follows the files of the repository:
    - [gooctranspoapi.go]: the SOAP/XML cooking pipeline
      ([checkErrorCode], [rawXMLTrip.convert], the three [cook] methods);
    - the GTFS part of the client (the query-modifier options, [setupGTFSURL],
      [GetGTFSAgency], [GetGTFSCalendar], [GetGTFSCalendarDates],
      [GetGTFSRoutes], [GetGTFSStops], [GetGTFSStopTimes], [GetGTFSTrips]),
      the request side of the three XML endpoints ([GetRouteSummaryForStop],
      [GetNextTripsForStop], [GetNextTripsForStopAllRoutes]) and the earlier
      GTFS file [gtfs.go] ([setupQuery], its options, [GTFSAgency]),
      together with the parts of the Go standard library these functions
      rely on ([strconv.Atoi], [strconv.Itoa], [strconv.ParseBool], [time.ParseInLocation]
      on the layout ["20060102150405"], [url.Values], [Values.Encode],
      [url.ParseQuery], [url.QueryEscape], [url.QueryUnescape]).

    Go strings are Rocq [string]s (lists of bytes).  A Go pair
    [(T, error)] whose [T] is dropped by every caller on error is a
    [result T]; one whose [T] is kept is a pair [T * option error]. *)

From Stdlib Require Import ZArith Ascii String List Floats Lia.
From stdpp Require Import base gmap list strings sorting.
Import ListNotations.
Open Scope string_scope.

(** ** Errors and results *)

Inductive NumErrorKind := ErrSyntax | ErrRange.

Inductive error :=
  (** [errors.New] in [checkErrorCode] *)
  | APIError (msg : string)
  (** [strconv.NumError] *)
  | NumError (func : string) (input : string) (kind : NumErrorKind)
  (** [time.ParseError] *)
  | TimeParseError (value : string) (msg : string)
  (** failure of [time.LoadLocation] *)
  | LoadLocationError (name : string)
  (** [errors.New] of a query-modifier option or of a GTFS endpoint *)
  | ConfigError (msg : string)
  (** [url.EscapeError] and the semicolon error of [url.ParseQuery] *)
  | QueryError (msg : string)
  (** errors of the transport ([Limiter.Wait], [http.Client.Do], non 200) *)
  | TransportError (msg : string)
  (** errors of [json.Decoder.Decode] and [xml.Decoder.Decode] *)
  | DecodeError (msg : string).

(** Go's [( *T, error)] where the code returns [nil, err] on failure. *)
Inductive result (A : Type) := Ok (a : A) | Err (e : error).
Arguments Ok {A} a.
Arguments Err {A} e.

Definition rbind {A B} (r : result A) (k : A -> result B) : result B :=
  match r with Ok a => k a | Err e => Err e end.

Notation "'let?' x ':=' r 'in' k" := (rbind r (fun x => k))
  (at level 200, x name, r at level 100, k at level 200).

(** ** [checkErrorCode] (gooctranspoapi.go) *)

Definition checkErrorCode (errorText : string) : string * option error :=
  match errorText with
  | "1" => ("", Some (APIError "error returned from API - Invalid API key"))
  | "2" => ("", Some (APIError "error returned from API - Unable to query data source"))
  | "10" => ("", Some (APIError "error returned from API - Invalid stop number"))
  | "11" => ("", Some (APIError "error returned from API - Invalid route number"))
  | "12" => ("", Some (APIError "error returned from API - Stop does not service route"))
  | _ => (errorText, None)
  end.

(** The call pattern [errorText, err := checkErrorCode(s); if err != nil
    { return nil, err }] of every cook. *)
Definition checkErrorCodeR (s : string) : result string :=
  match checkErrorCode s with
  | (_, Some e) => Err e
  | (t, None) => Ok t
  end.

(** ** strconv *)

Definition isDigit (c : ascii) : bool :=
  (48 <=? nat_of_ascii c)%nat && (nat_of_ascii c <=? 57)%nat.

Definition digitVal (c : ascii) : Z := (Z.of_nat (nat_of_ascii c) - 48)%Z.

(** Value of a non-empty run of decimal digits. *)
Fixpoint digitsAcc (acc : Z) (s : string) : option Z :=
  match s with
  | EmptyString => Some acc
  | String c r => if isDigit c then digitsAcc (acc * 10 + digitVal c)%Z r else None
  end.

Definition digitsVal (s : string) : option Z :=
  match s with
  | EmptyString => None
  | _ => digitsAcc 0%Z s
  end.

(** [strconv.Atoi] on a 64-bit platform: an optional sign followed by at
    least one decimal digit, the value within the [int] range (the fast
    path for strings of fewer than 19 bytes and [ParseInt(s, 10, 0)]
    otherwise accept the same strings). *)
Definition Atoi (s : string) : result Z :=
  let '(neg, digits) :=
    match s with
    | String "-" r => (true, r)
    | String "+" r => (false, r)
    | _ => (false, s)
    end in
  match digitsVal digits with
  | None => Err (NumError "Atoi" s ErrSyntax)
  | Some n =>
      let v := (if neg then - n else n)%Z in
      if ((- 2 ^ 63 <=? v) && (v <? 2 ^ 63))%Z then Ok v
      else Err (NumError "Atoi" s ErrRange)
  end.

(** [strconv.ParseBool] *)
Definition ParseBool (str : string) : result bool :=
  match str with
  | "1" | "t" | "T" | "true" | "TRUE" | "True" => Ok true
  | "0" | "f" | "F" | "false" | "FALSE" | "False" => Ok false
  | _ => Err (NumError "ParseBool" str ErrSyntax)
  end.

(** [strconv.Itoa(i)], that is [FormatInt(int64(i), 10)]: the decimal
    digits of [|i|], most significant first, after a ['-'] for a negative
    [i].  [formatDigits] is the digit loop of [formatBits]: it prepends the
    last digit of [u] to [acc] until [u] has one digit left; twenty rounds
    cover every [int64]. *)
Definition digitChar (k : Z) : ascii := ascii_of_nat (48 + Z.to_nat k).

Fixpoint formatDigits (fuel : nat) (u : Z) (acc : string) : string :=
  match fuel with
  | O => acc
  | S f =>
      let acc' := String (digitChar (u mod 10)%Z) acc in
      if (u <? 10)%Z then acc' else formatDigits f (u / 10)%Z acc'
  end.

Definition Itoa (i : Z) : string :=
  if (i <? 0)%Z then String "-" (formatDigits 20 (- i)%Z EmptyString)
  else formatDigits 20 i EmptyString.

(** ** [time.ParseInLocation("20060102150405", value, loc)]

    [time.Parse] walks the layout chunk by chunk.  The layout
    ["20060102150405"] is the chunk sequence [stdLongYear] ("2006"),
    [stdZeroMonth] ("01"), [stdZeroDay] ("02"), [stdHour] ("15"),
    [stdZeroMinute] ("04"), [stdZeroSecond] ("05"), with empty literal text
    between them; [parseTime14] is that walk, written out. *)

(** A [*time.Location]: the database entry [time.LoadLocation] returns. *)
Record Location := mkLocation { LocationName : string }.

(** The [time.Time] built by [time.Date(year, month, day, hour, min, sec,
    nsec, loc)], kept as the arguments of that call.  [time.Date]
    normalises a wall-clock time that a zone transition of [loc] skips
    (02:30 on 2018-03-11 in America/Toronto becomes 01:30 EST); the
    record does not model that step, so its fields are what the parser
    hands to [time.Date], not the wall clock of the resulting instant. *)
Record GoTime := mkGoTime {
  year : Z; month : Z; day : Z; hour : Z; minute : Z; second : Z; nsec : Z;
  loc : Location }.

(** [getnum(s, fixed)] *)
Definition getnum (s : string) (fixed : bool) : option (Z * string) :=
  match s with
  | String c0 r =>
      if negb (isDigit c0) then None else
      match r with
      | String c1 r' =>
          if isDigit c1 then Some ((digitVal c0 * 10 + digitVal c1)%Z, r')
          else if fixed then None else Some (digitVal c0, r)
      | EmptyString => if fixed then None else Some (digitVal c0, r)
      end
  | EmptyString => None
  end.

(** [stdLongYear]: four bytes, the first a digit, read by [atoi]. *)
Definition getyear (s : string) : option (Z * string) :=
  match s with
  | String c0 (String c1 (String c2 (String c3 r))) =>
      if isDigit c0 then
        match digitsVal (String c0 (String c1 (String c2 (String c3 EmptyString)))) with
        | Some y => Some (y, r)
        | None => None
        end
      else None
  | _ => None
  end.

(** Length of the run of digits at the head of [s]. *)
Fixpoint digitRun (s : string) : nat :=
  match s with
  | String c r => if isDigit c then S (digitRun r) else O
  | EmptyString => O
  end.

(** [s[n:]] *)
Fixpoint skipStr (n : nat) (s : string) : string :=
  match n, s with
  | O, _ => s
  | S n', String _ r => skipStr n' r
  | S _, EmptyString => EmptyString
  end.

Definition commaOrPeriod (c : ascii) : bool :=
  (Ascii.eqb c ",") || (Ascii.eqb c ".").

(** The special case after [stdZeroSecond]: "do we have a fractional
    second but no fractional second in the format?"  When the value goes
    on with ['.'] or [','] and a digit, all the following digits are
    consumed; [parseNanoseconds] reads the first nine of them (at most)
    and scales them to nanoseconds. *)
Definition fracSecond (s : string) : Z * string :=
  match s with
  | String c (String d r) =>
      if commaOrPeriod c && isDigit d then
        let n := S (digitRun r) in
        let m := Nat.min n 9 in
        match digitsVal (substring 0 m (String d r)) with
        | Some ns => ((ns * 10 ^ (9 - Z.of_nat m))%Z, skipStr n (String d r))
        | None => (0%Z, s)
        end
      else (0%Z, s)
  | _ => (0%Z, s)
  end.

(** [daysIn(month, year)] *)
Definition isLeap (y : Z) : bool :=
  (Z.eqb (y mod 4) 0) && (negb (Z.eqb (y mod 100) 0) || Z.eqb (y mod 400) 0).

Definition daysIn (m y : Z) : Z :=
  match m with
  | 1 | 3 | 5 | 7 | 8 | 10 | 12 => 31
  | 4 | 6 | 9 | 11 => 30
  | 2 => if isLeap y then 29 else 28
  | _ => 0
  end%Z.

Definition parseErr (value : string) : result GoTime :=
  Err (TimeParseError value "cannot parse").

Definition parseTime14 (value : string) (tz : Location) : result GoTime :=
  match getyear value with None => parseErr value | Some (y, v1) =>
  match getnum v1 true with None => parseErr value | Some (mo, v2) =>
  if negb ((1 <=? mo) && (mo <=? 12))%Z then Err (TimeParseError value "month out of range") else
  match getnum v2 true with None => parseErr value | Some (d, v3) =>
  match getnum v3 false with None => parseErr value | Some (h, v4) =>
  if negb ((0 <=? h) && (h <? 24))%Z then Err (TimeParseError value "hour out of range") else
  match getnum v4 true with None => parseErr value | Some (mi, v5) =>
  if negb ((0 <=? mi) && (mi <? 60))%Z then Err (TimeParseError value "minute out of range") else
  match getnum v5 true with None => parseErr value | Some (se, v6) =>
  if negb ((0 <=? se) && (se <? 60))%Z then Err (TimeParseError value "second out of range") else
  let '(ns, v7) := fracSecond v6 in
  match v7 with
  | String _ _ => Err (TimeParseError value "extra text")
  | EmptyString =>
      if negb ((1 <=? d) && (d <=? daysIn mo y))%Z then Err (TimeParseError value "day out of range")
      else Ok (mkGoTime y mo d h mi se ns tz)
  end end end end end end end.

(** ** Wire shapes (the raw XML structs of gooctranspoapi.go)

    Each record keeps the fields the cooks read; a field reached in Go
    through [Body.<Response>.<Result>.<Field>.Text] is one field here.
    The namespace attributes and the [Text] chardata of the wrappers are
    never read by the cooks and are left out. *)

Module rawXMLTrip.
Record t := mk {
  TripDestination : string; TripStartTime : string;
  AdjustedScheduleTime : string; AdjustmentAge : string;
  LastTripOfSchedule : string; BusType : string;
  Latitude : string; Longitude : string; GPSSpeed : string }.
End rawXMLTrip.

(** An element of [GetRouteSummaryForStopResult.Routes.Route]. *)
Module rawRoute.
Record t := mk {
  RouteNo : string; DirectionID : string; Direction : string; RouteHeading : string }.
End rawRoute.

Module rawRouteSummaryForStop.
Record t := mk {
  StopNo : string; StopDescription : string; Error : string;
  Routes : list rawRoute.t }.
End rawRouteSummaryForStop.

(** An element of [GetNextTripsForStopResult.Route.RouteDirection]. *)
Module rawRouteDirection.
Record t := mk {
  RouteNo : string; RouteLabel : string; Direction : string; Error : string;
  RequestProcessingTime : string; Trips : list rawXMLTrip.t }.
End rawRouteDirection.

Module rawNextTripsForStop.
Record t := mk {
  StopNo : string; StopLabel : string; Error : string;
  RouteDirection : list rawRouteDirection.t }.
End rawNextTripsForStop.

(** An element of [GetRouteSummaryForStopResult.Routes.Route] in the
    all-routes envelope. *)
Module rawRouteWithTrips.
Record t := mk {
  RouteNo : string; DirectionID : string; Direction : string;
  RouteHeading : string; Trips : list rawXMLTrip.t }.
End rawRouteWithTrips.

Module rawNextTripsForStopAllRoutes.
Record t := mk {
  StopNo : string; StopDescription : string; Error : string;
  Routes : list rawRouteWithTrips.t }.
End rawNextTripsForStopAllRoutes.

(** ** Domain values *)

(** The four wrappers [LastTripOfSchedule], [Latitude], [Longitude] and
    [GPSSpeed] are the same struct [{Set bool; Value T}]. *)
Record OptionalScalar (T : Type) := mkOpt { IsSet : bool; Value : T }.
Arguments mkOpt {T} _ _.
Arguments IsSet {T} _.
Arguments Value {T} _.

Module Trip.
Record t := mk {
  TripDestination : string; TripStartTime : string;
  AdjustedScheduleTime : Z; AdjustmentAge : float;
  LastTripOfSchedule : OptionalScalar bool; BusType : string;
  Latitude : OptionalScalar float; Longitude : OptionalScalar float;
  GPSSpeed : OptionalScalar float }.
End Trip.

Module Route.
Record t := mk {
  RouteNo : string; DirectionID : string; Direction : string; RouteHeading : string }.
End Route.

Module RouteSummaryForStop.
Record t := mk {
  StopNo : string; StopDescription : string; Error : string; Routes : list Route.t }.
End RouteSummaryForStop.

Module RouteDirection.
Record t := mk {
  RouteNo : string; RouteLabel : string; Direction : string; Error : string;
  RequestProcessingTime : GoTime; Trips : list Trip.t }.
End RouteDirection.

Module NextTripsForStop.
Record t := mk {
  StopNo : string; StopLabel : string; Error : string;
  RouteDirections : list RouteDirection.t }.
End NextTripsForStop.

Module RouteWithTrips.
Record t := mk {
  RouteNo : string; DirectionID : string; Direction : string;
  RouteHeading : string; Trips : list Trip.t }.
End RouteWithTrips.

Module NextTripsForStopAllRoutes.
Record t := mk {
  StopNo : string; StopDescription : string; Error : string;
  Routes : list RouteWithTrips.t }.
End NextTripsForStopAllRoutes.

(** ** Cooking

    [strconv.ParseFloat(s, 64)] and [time.LoadLocation] are parameters of
    the pipeline: the first is Go's decimal-to-float64 conversion, the
    second reads the system's time zone database. *)

Section Cooking.

Variable ParseFloat : string -> result float.
Variable LoadLocation : string -> result Location.

(** [ct := Trip{}] followed by the assignments of [convert]; an unset
    field keeps its zero value. *)
Definition tripOf dest start ast age lts bus lat lon gps : Trip.t :=
  Trip.mk dest start ast age lts bus lat lon gps.

Definition noBool : OptionalScalar bool := mkOpt false false.
Definition noFloat : OptionalScalar float := mkOpt false 0%float.

(** [func (t rawXMLTrip) convert() (Trip, error)]: on error the partially
    filled [ct] is returned with the error. *)
Definition convert (t : rawXMLTrip.t) : Trip.t * option error :=
  let dest := rawXMLTrip.TripDestination t in
  let start := rawXMLTrip.TripStartTime t in
  match Atoi (rawXMLTrip.AdjustedScheduleTime t) with
  | Err e => (tripOf dest start 0%Z 0%float noBool "" noFloat noFloat noFloat, Some e)
  | Ok ast =>
  match ParseFloat (rawXMLTrip.AdjustmentAge t) with
  | Err e => (tripOf dest start ast 0%float noBool "" noFloat noFloat noFloat, Some e)
  | Ok age =>
  match (if String.eqb (rawXMLTrip.LastTripOfSchedule t) "" then Ok noBool
         else match ParseBool (rawXMLTrip.LastTripOfSchedule t) with
              | Ok b => Ok (mkOpt true b) | Err e => Err e end) with
  | Err e => (tripOf dest start ast age noBool "" noFloat noFloat noFloat, Some e)
  | Ok lts =>
  let bus := rawXMLTrip.BusType t in
  match (if String.eqb (rawXMLTrip.Latitude t) "" then Ok noFloat
         else match ParseFloat (rawXMLTrip.Latitude t) with
              | Ok x => Ok (mkOpt true x) | Err e => Err e end) with
  | Err e => (tripOf dest start ast age lts bus noFloat noFloat noFloat, Some e)
  | Ok lat =>
  match (if String.eqb (rawXMLTrip.Longitude t) "" then Ok noFloat
         else match ParseFloat (rawXMLTrip.Longitude t) with
              | Ok x => Ok (mkOpt true x) | Err e => Err e end) with
  | Err e => (tripOf dest start ast age lts bus lat noFloat noFloat, Some e)
  | Ok lon =>
  match (if String.eqb (rawXMLTrip.GPSSpeed t) "" then Ok noFloat
         else match ParseFloat (rawXMLTrip.GPSSpeed t) with
              | Ok x => Ok (mkOpt true x) | Err e => Err e end) with
  | Err e => (tripOf dest start ast age lts bus lat lon noFloat, Some e)
  | Ok gps => (tripOf dest start ast age lts bus lat lon gps, None)
  end end end end end end.

(** [for _, t := range trips { ct, err := t.convert(); if err != nil
    { return nil, err }; crd.Trips = append(crd.Trips, ct) }] *)
Fixpoint convertTrips (ts : list rawXMLTrip.t) : result (list Trip.t) :=
  match ts with
  | [] => Ok []
  | t :: ts' =>
      match convert t with
      | (_, Some e) => Err e
      | (ct, None) =>
          let? rest := convertTrips ts' in Ok (ct :: rest)
      end
  end.

(** [func (d *rawRouteSummaryForStop) cook()] *)
Definition cookRoute (r : rawRoute.t) : Route.t :=
  Route.mk (rawRoute.RouteNo r) (rawRoute.DirectionID r)
           (rawRoute.Direction r) (rawRoute.RouteHeading r).

Definition cookRouteSummaryForStop (d : rawRouteSummaryForStop.t)
  : result RouteSummaryForStop.t :=
  let? errorText := checkErrorCodeR (rawRouteSummaryForStop.Error d) in
  Ok (RouteSummaryForStop.mk (rawRouteSummaryForStop.StopNo d)
        (rawRouteSummaryForStop.StopDescription d) errorText
        (map cookRoute (rawRouteSummaryForStop.Routes d))).

(** One iteration of the loop over [Route.RouteDirection] in
    [func (d *rawNextTripsForStop) cook()]. *)
Definition cookRouteDirection (rd : rawRouteDirection.t) : result RouteDirection.t :=
  let? errorText := checkErrorCodeR (rawRouteDirection.Error rd) in
  let? tz := LoadLocation "America/Toronto" in
  let? parsed := parseTime14 (rawRouteDirection.RequestProcessingTime rd) tz in
  let? trips := convertTrips (rawRouteDirection.Trips rd) in
  Ok (RouteDirection.mk (rawRouteDirection.RouteNo rd) (rawRouteDirection.RouteLabel rd)
        (rawRouteDirection.Direction rd) errorText parsed trips).

(** The loop itself: the first failing iteration ends the cook. *)
Fixpoint cookRouteDirections (rds : list rawRouteDirection.t)
  : result (list RouteDirection.t) :=
  match rds with
  | [] => Ok []
  | rd :: rds' =>
      let? crd := cookRouteDirection rd in
      let? rest := cookRouteDirections rds' in Ok (crd :: rest)
  end.

Definition cookNextTripsForStop (d : rawNextTripsForStop.t) : result NextTripsForStop.t :=
  let? errorText := checkErrorCodeR (rawNextTripsForStop.Error d) in
  let? rds := cookRouteDirections (rawNextTripsForStop.RouteDirection d) in
  Ok (NextTripsForStop.mk (rawNextTripsForStop.StopNo d)
        (rawNextTripsForStop.StopLabel d) errorText rds).

(** [func (d *rawNextTripsForStopAllRoutes) cook()] *)
Definition cookRouteWithTrips (rt : rawRouteWithTrips.t) : result RouteWithTrips.t :=
  let? trips := convertTrips (rawRouteWithTrips.Trips rt) in
  Ok (RouteWithTrips.mk (rawRouteWithTrips.RouteNo rt) (rawRouteWithTrips.DirectionID rt)
        (rawRouteWithTrips.Direction rt) (rawRouteWithTrips.RouteHeading rt) trips).

Fixpoint cookRoutesWithTrips (rts : list rawRouteWithTrips.t)
  : result (list RouteWithTrips.t) :=
  match rts with
  | [] => Ok []
  | rt :: rts' =>
      let? crt := cookRouteWithTrips rt in
      let? rest := cookRoutesWithTrips rts' in Ok (crt :: rest)
  end.

Definition cookNextTripsForStopAllRoutes (d : rawNextTripsForStopAllRoutes.t)
  : result NextTripsForStopAllRoutes.t :=
  let? errorText := checkErrorCodeR (rawNextTripsForStopAllRoutes.Error d) in
  let? rts := cookRoutesWithTrips (rawNextTripsForStopAllRoutes.Routes d) in
  Ok (NextTripsForStopAllRoutes.mk (rawNextTripsForStopAllRoutes.StopNo d)
        (rawNextTripsForStopAllRoutes.StopDescription d) errorText rts).

End Cooking.

(** ** [net/url]: [Values], [QueryEscape], [QueryUnescape], [Encode],
    [ParseQuery] *)

(** [url.Values] is [map[string][]string]. *)
Abbreviation Values := (gmap string (list string)).

(** [v.Set(key, value)] *)
Definition VSet (k v : string) (m : Values) : Values := <[k := [v]]> m.

(** [v.Get(key)]: the first value, or [""]. *)
Definition VGet (k : string) (m : Values) : string :=
  match m !! k with
  | Some (v :: _) => v
  | _ => ""
  end.

(** [m[key] = append(m[key], value)] *)
Definition VAdd (k v : string) (m : Values) : Values :=
  <[k := (default [] (m !! k) ++ [v])%list]> m.

Definition upperhex : string := "0123456789ABCDEF".

Definition hexDigit (n : nat) : ascii :=
  match String.get n upperhex with Some c => c | None => "0"%char end.

Definition inRange (lo hi : nat) (c : ascii) : bool :=
  (lo <=? nat_of_ascii c)%nat && (nat_of_ascii c <=? hi)%nat.

(** [shouldEscape(c, encodeQueryComponent)]: everything but the
    alphanumerics and ['-'], ['_'], ['.'], ['~'] is escaped. *)
Definition shouldEscape (c : ascii) : bool :=
  negb (inRange 97 122 c || inRange 65 90 c || inRange 48 57 c
        || Ascii.eqb c "-" || Ascii.eqb c "_" || Ascii.eqb c "." || Ascii.eqb c "~").

(** [escape(s, encodeQueryComponent)] byte by byte: a space becomes ['+'],
    another escaped byte becomes ['%'] and two upper-case hex digits. *)
Definition escapeByte (c : ascii) : string :=
  if shouldEscape c then
    if Ascii.eqb c " " then "+"
    else String "%" (String (hexDigit (nat_of_ascii c / 16))
                            (String (hexDigit (nat_of_ascii c mod 16)) EmptyString))
  else String c EmptyString.

Fixpoint QueryEscape (s : string) : string :=
  match s with
  | EmptyString => EmptyString
  | String c r => escapeByte c ++ QueryEscape r
  end.

(** [unhex]; [None] where [ishex] is false. *)
Definition unhex (c : ascii) : option nat :=
  let n := nat_of_ascii c in
  if inRange 48 57 c then Some (n - 48)%nat
  else if inRange 97 102 c then Some (n - 97 + 10)%nat
  else if inRange 65 70 c then Some (n - 65 + 10)%nat
  else None.

(** [unescape(s, encodeQueryComponent)]: Go first checks that every ['%']
    is followed by two hex digits (an [EscapeError] otherwise), then
    decodes, turning ['+'] into a space; one pass does both here. *)
Fixpoint QueryUnescape (s : string) : result string :=
  match s with
  | EmptyString => Ok EmptyString
  | String c r =>
      if Ascii.eqb c "%" then
        match r with
        | String h1 (String h2 r') =>
            match unhex h1, unhex h2 with
            | Some a, Some b =>
                let? rest := QueryUnescape r' in Ok (String (ascii_of_nat (a * 16 + b)) rest)
            | _, _ => Err (QueryError "invalid URL escape")
            end
        | _ => Err (QueryError "invalid URL escape")
        end
      else if Ascii.eqb c "+" then
        let? rest := QueryUnescape r in Ok (String " " rest)
      else
        let? rest := QueryUnescape r in Ok (String c rest)
  end.

(** The keys in [sort.Strings] order. *)
Definition sortedKeys (m : Values) : list string :=
  merge_sort String.le (map fst (map_to_list m)).

Definition encodePair (k v : string) : string := QueryEscape k ++ "=" ++ QueryEscape v.

(** [func (v Values) Encode() string]: for each key in sorted order, one
    ["key=value"] per value, joined with ['&']. *)
Definition Encode (m : Values) : string :=
  String.concat "&"
    (flat_map (fun k => map (encodePair k) (default [] (m !! k))) (sortedKeys m)).

(** [strings.Split]-like cutting at every [c]. *)
Fixpoint splitOn (c : ascii) (s : string) : list string :=
  match s with
  | EmptyString => [EmptyString]
  | String x r =>
      if Ascii.eqb x c then EmptyString :: splitOn c r
      else match splitOn c r with
           | p :: ps => String x p :: ps
           | [] => [String x EmptyString]
           end
  end.

(** [strings.Cut(s, sep)] for a one-byte separator. *)
Fixpoint cutOn (c : ascii) (s : string) : string * string * bool :=
  match s with
  | EmptyString => (EmptyString, EmptyString, false)
  | String x r =>
      if Ascii.eqb x c then (EmptyString, r, true)
      else let '(b, a, f) := cutOn c r in (String x b, a, f)
  end.

Fixpoint containsByte (c : ascii) (s : string) : bool :=
  match s with
  | EmptyString => false
  | String x r => Ascii.eqb x c || containsByte c r
  end.

(** One iteration of the loop of [parseQuery(m, query)]. *)
Definition parseQueryPiece (acc : Values * option error) (key : string)
  : Values * option error :=
  let '(m, err) := acc in
  if containsByte ";" key then (m, Some (QueryError "invalid semicolon separator in query"))
  else if String.eqb key "" then (m, err)
  else
    let '(k, v, _) := cutOn "=" key in
    match QueryUnescape k with
    | Err e1 => (m, match err with None => Some e1 | Some _ => err end)
    | Ok k' =>
        match QueryUnescape v with
        | Err e1 => (m, match err with None => Some e1 | Some _ => err end)
        | Ok v' => (VAdd k' v' m, err)
        end
    end.

(** [url.ParseQuery(query)].  Go cuts the query at each ['&'] with
    [strings.Cut] until nothing is left; the pieces are those of
    [splitOn "&"], up to empty pieces, which the loop skips. *)
Definition ParseQuery (query : string) : Values * option error :=
  foldl parseQueryPiece (∅, None) (splitOn "&" query).

(** ** The GTFS client (the current [gooctranspoapi] GTFS file)

    An option is a [func(url.Values) error]: it updates the shared map
    in place and may fail. *)

Definition QueryOption := Values -> Values * option error.

(** [ID(id)] *)
Definition ID (id : string) : QueryOption := fun v => (VSet "id" id v, None).

(** [ColumnAndValue(column, value)] *)
Definition ColumnAndValue (column value : string) : QueryOption :=
  fun v => (VSet "value" value (VSet "column" column v), None).

(** [OrderBy(orderBy)]: sorts by a column; the value is not checked. *)
Definition OrderBy (orderBy : string) : QueryOption :=
  fun v => (VSet "orderBy" orderBy v, None).

(** [Direction(direction)]: only ["asc"] and ["desc"] are accepted. *)
Definition Direction (direction : string) : QueryOption :=
  fun v =>
    if negb (String.eqb direction "asc") && negb (String.eqb direction "desc")
    then (v, Some (ConfigError "direction only accepts asc or desc as parameters"))
    else (VSet "direction" direction v, None).

(** [setTable(table)] *)
Definition setTable (table : string) : QueryOption :=
  fun v => (VSet "table" table v, None).

(** [Limit(limit)]: [v.Set("limit", strconv.Itoa(limit))]. *)
Definition Limit (limit : Z) : QueryOption :=
  fun v => (VSet "limit" (Itoa limit) v, None).

Record Connection := mkConnection { ConnID : string; ConnKey : string }.

Definition APIURLPrefix : string := "https://api.octranspo1.com/v1.2/".

(** A parsed [*url.URL]: the address before the query and [RawQuery]. *)
Record URL := mkURL { URLBase : string; RawQuery : string }.

(** [u.String()] *)
Definition URLString (u : URL) : string :=
  URLBase u ++ (if String.eqb (RawQuery u) "" then "" else "?" ++ RawQuery u).

(** [for _, opt := range options { err := opt(v); if err != nil
    { return nil, err } }] *)
Fixpoint applyOptions (options : list QueryOption) (v : Values) : result Values :=
  match options with
  | [] => Ok v
  | opt :: rest =>
      match opt v with
      | (_, Some e) => Err e
      | (v', None) => applyOptions rest v'
      end
  end.

(** The map built by [setupGTFSURL] before it is encoded. *)
Definition setupGTFSValues (c : Connection) (options : list QueryOption) : result Values :=
  applyOptions options
    (VSet "format" "json" (VSet "apiKey" (ConnKey c) (VSet "appID" (ConnID c) ∅))).

(** [func (c Connection) setupGTFSURL(options ...) ( *url.URL, error)];
    [url.Parse] of the constant address does not fail. *)
Definition setupGTFSURL (c : Connection) (options : list QueryOption) : result URL :=
  let? v := setupGTFSValues c options in
  Ok (mkURL (APIURLPrefix ++ "Gtfs") (Encode v)).

(** A call that may reach the network: [Fetch u k] is
    [c.performGTFSRequest(ctx, u)] (the rate limiter, the GET request and
    the status check) answering the response body or a transport error to
    the rest [k] of the function.  A value [Done r] returned without any
    [Fetch] is returned before any request is made. *)
Inductive Net (A : Type) :=
  | Done (a : A)
  | Fetch (url : string) (k : result string -> Net A).
Arguments Done {A} a.
Arguments Fetch {A} url k.

(** GTFS tables (the [Query] echo and the [Gtfs] rows). *)
Record GTFSQuery := mkGTFSQuery {
  QTable : string; QDirection : string; QColumn : string; QValue : string;
  QFormat : string }.

Record AgencyRow := mkAgencyRow {
  AgencyRowID : string; AgencyName : string; AgencyURL : string;
  AgencyTimezone : string; AgencyLang : string; AgencyPhone : string }.

Record GTFSAgency := mkGTFSAgency { AgencyQuery : GTFSQuery; AgencyGtfs : list AgencyRow }.

Record StopRow := mkStopRow {
  StopRowID : string; StopID : string; StopCode : string; StopName : string;
  StopDesc : string; StopLat : string; StopLon : string; ZoneID : string;
  StopURL : string; LocationType : string; ParentStation : string }.

Record GTFSStops := mkGTFSStops { StopsQuery : GTFSQuery; StopsGtfs : list StopRow }.

Record StopTimeRow := mkStopTimeRow {
  StopTimeRowID : string; StopTimeTripID : string; ArrivalTime : string;
  DepartureTime : string; StopTimeStopID : string; StopSequence : string;
  PickupType : string; DropOffType : string }.

Record GTFSStopTimes := mkGTFSStopTimes {
  StopTimesQuery : GTFSQuery; StopTimesGtfs : list StopTimeRow }.

Record TripRow := mkTripRow {
  TripRowID : string; TripRouteID : string; ServiceID : string; TripID : string;
  TripHeadsign : string; TripDirectionID : string; BlockID : string }.

Record GTFSTrips := mkGTFSTrips { TripsQuery : GTFSQuery; TripsGtfs : list TripRow }.

(** [json.NewDecoder(respBody).Decode(data)] into a fresh table is a
    parameter: it answers the table as far as it was filled and the error
    of [Decode]. *)
Section GTFS.

Variable decodeAgency : string -> GTFSAgency * option error.
Variable decodeStops : string -> GTFSStops * option error.
Variable decodeStopTimes : string -> GTFSStopTimes * option error.
Variable decodeTrips : string -> GTFSTrips * option error.

(** [respBody, err := c.performGTFSRequest(ctx, u); if err != nil
    { return nil, err }; data := &T{}; err = json.NewDecoder(respBody)
    .Decode(data); respBody.Close(); return data, err] *)
Definition fetchAndDecode {T} (decode : string -> T * option error) (u : URL)
  : Net (option T * option error) :=
  Fetch (URLString u) (fun r =>
    match r with
    | Err e => Done (None, Some e)
    | Ok body => let '(data, err) := decode body in Done (Some data, err)
    end).

(** [func (c Connection) GetGTFSAgency(ctx, options ...)] *)
Definition GetGTFSAgency (c : Connection) (options : list QueryOption)
  : Net (option GTFSAgency * option error) :=
  match setupGTFSURL c (options ++ [setTable "agency"]) with
  | Err e => Done (None, Some e)
  | Ok u => fetchAndDecode decodeAgency u
  end.

(** The selector check shared in shape by [GetGTFSStops],
    [GetGTFSStopTimes] and [GetGTFSTrips]: [v, err := url.ParseQuery(
    u.RawQuery); if err != nil { return nil, err }; if <check fails>
    { return nil, errors.New(msg) }], then the request. *)
Definition withSelector {T} (table : string) (ok : Values -> bool) (msg : string)
  (decode : string -> T * option error) (c : Connection) (options : list QueryOption)
  : Net (option T * option error) :=
  match setupGTFSURL c (options ++ [setTable table]) with
  | Err e => Done (None, Some e)
  | Ok u =>
      match ParseQuery (RawQuery u) with
      | (_, Some e) => Done (None, Some e)
      | (v, None) =>
          if negb (ok v) then Done (None, Some (ConfigError msg))
          else fetchAndDecode decode u
      end
  end.

(** [GetGTFSStops]: [v.Get("column") != "stop_id" && v.Get("column") !=
    "stop_code" && v.Get("id") == ""] is the failing check. *)
Definition GetGTFSStops : Connection -> list QueryOption -> Net (option GTFSStops * option error) :=
  withSelector "stops"
    (fun v => negb (negb (String.eqb (VGet "column" v) "stop_id")
                    && negb (String.eqb (VGet "column" v) "stop_code")
                    && String.eqb (VGet "id" v) ""))
    "a stop_id, stop_code or id value must be specified" decodeStops.

(** [GetGTFSStopTimes] *)
Definition GetGTFSStopTimes : Connection -> list QueryOption -> Net (option GTFSStopTimes * option error) :=
  withSelector "stop_times"
    (fun v => negb (negb (String.eqb (VGet "column" v) "trip_id")
                    && negb (String.eqb (VGet "column" v) "stop_id")
                    && String.eqb (VGet "id" v) ""))
    "a trip_id, stop_id or id value must be specified" decodeStopTimes.

(** [GetGTFSTrips] *)
Definition GetGTFSTrips : Connection -> list QueryOption -> Net (option GTFSTrips * option error) :=
  withSelector "trips"
    (fun v => negb (negb (String.eqb (VGet "column" v) "route_id")
                    && String.eqb (VGet "id" v) ""))
    "a route_id or id value must be specified" decodeTrips.

End GTFS.

(** The other three tables, requested without a selector check. *)
Record CalendarRow := mkCalendarRow {
  CalendarRowID : string; CalendarServiceID : string; Monday : string;
  Tuesday : string; Wednesday : string; Thursday : string; Friday : string;
  Saturday : string; Sunday : string; StartDate : string; EndDate : string }.

Record GTFSCalendar := mkGTFSCalendar {
  CalendarQuery : GTFSQuery; CalendarGtfs : list CalendarRow }.

Record CalendarDateRow := mkCalendarDateRow {
  CalendarDateRowID : string; CalendarDateServiceID : string; CalendarDate : string;
  ExceptionType : string }.

Record GTFSCalendarDates := mkGTFSCalendarDates {
  CalendarDatesQuery : GTFSQuery; CalendarDatesGtfs : list CalendarDateRow }.

Record RouteRow := mkRouteRow {
  RouteRowID : string; RouteID : string; RouteShortName : string;
  RouteLongName : string; RouteDesc : string; RouteType : string }.

Record GTFSRoutes := mkGTFSRoutes { RoutesQuery : GTFSQuery; RoutesGtfs : list RouteRow }.

Section GTFSMore.

Variable decodeCalendar : string -> GTFSCalendar * option error.
Variable decodeCalendarDates : string -> GTFSCalendarDates * option error.
Variable decodeRoutes : string -> GTFSRoutes * option error.

(** [func (c Connection) GetGTFSCalendar(ctx, options ...)] *)
Definition GetGTFSCalendar (c : Connection) (options : list QueryOption)
  : Net (option GTFSCalendar * option error) :=
  match setupGTFSURL c (options ++ [setTable "calendar"]) with
  | Err e => Done (None, Some e)
  | Ok u => fetchAndDecode decodeCalendar u
  end.

(** [func (c Connection) GetGTFSCalendarDates(ctx, options ...)] *)
Definition GetGTFSCalendarDates (c : Connection) (options : list QueryOption)
  : Net (option GTFSCalendarDates * option error) :=
  match setupGTFSURL c (options ++ [setTable "calendar_dates"]) with
  | Err e => Done (None, Some e)
  | Ok u => fetchAndDecode decodeCalendarDates u
  end.

(** [func (c Connection) GetGTFSRoutes(ctx, options ...)] *)
Definition GetGTFSRoutes (c : Connection) (options : list QueryOption)
  : Net (option GTFSRoutes * option error) :=
  match setupGTFSURL c (options ++ [setTable "routes"]) with
  | Err e => Done (None, Some e)
  | Ok u => fetchAndDecode decodeRoutes u
  end.

End GTFSMore.

(** The earlier copy of the option in gtfs.go, which checks the value. *)
Module gtfs_go.
Definition OrderBy (orderBy : string) : QueryOption :=
  fun v =>
    if negb (String.eqb orderBy "asc") && negb (String.eqb orderBy "desc")
    then (v, Some (ConfigError "OrderBy only accepts asc or desc as parameters."))
    else (VSet "orderBy" orderBy v, None).

(** The rest of [gtfs.go]: its connection keeps [id] and [key], and
    [setupQuery] starts every query from them. *)
Definition ApiURLPrefix : string := "https://api.octranspo1.com/v1.2/".
Definition GTFSMethodPath : string := "Gtfs".

Definition ID (id : string) : QueryOption := fun query => (VSet "id" id query, None).
Definition Column (column : string) : QueryOption :=
  fun query => (VSet "column" column query, None).
Definition Value (value : string) : QueryOption :=
  fun query => (VSet "value" value query, None).
(** Here [Direction] does not check its argument. *)
Definition Direction (direction : string) : QueryOption :=
  fun query => (VSet "direction" direction query, None).
Definition Limit (limit : Z) : QueryOption :=
  fun query => (VSet "limit" (Itoa limit) query, None).

(** [func (c *Connection) setupQuery() url.Values] *)
Definition setupQuery (c : Connection) : Values :=
  VSet "format" "json" (VSet "apiKey" (ConnKey c) (VSet "appID" (ConnID c) ∅)).

(** [GTFSAgencyData] has the fields of [GTFSAgency]. *)
Definition GTFSAgencyData : Type := GTFSAgency.

(** [func (c *Connection) GTFSAgency(options ...)]: the table is set
    before the options run, and a column without a value is refused;
    [url.Parse] of the constant address does not fail, and the
    [fmt.Println] calls only print.  [http.Get], the status check and the
    decode are [fetchAndDecode]. *)
Definition GTFSAgency (decode : string -> GTFSAgencyData * option error) (c : Connection)
  (options : list QueryOption) : Net (option GTFSAgencyData * option error) :=
  let query := VSet "table" "agency" (setupQuery c) in
  match applyOptions options query with
  | Err e => Done (None, Some e)
  | Ok q =>
      if negb (String.eqb (VGet "column" q) "") && String.eqb (VGet "value" q) ""
      then Done (None, Some (ConfigError "If a column is specified, a value must also be specified."))
      else fetchAndDecode decode (mkURL (ApiURLPrefix ++ GTFSMethodPath) (Encode q))
  end.
End gtfs_go.

(** ** The XML endpoints (gooctranspoapi.go)

    A call that may POST: [PostForm url body k] is [c.performRequest(ctx,
    *u, v)] with [u.String()] and [v.Encode()] (the form body), answering
    the response body or a transport error to the rest [k]. *)
Inductive Post (A : Type) :=
  | Answer (a : A)
  | PostForm (url : string) (body : string) (k : result string -> Post A).
Arguments Answer {A} a.
Arguments PostForm {A} url body k.

(** The connection's [cAPIURLPrefix], [url.Parse] and the three
    [xml.Decoder.Decode] calls (answering the filled raw envelope, or
    the error on which the endpoint returns [nil, err]) are parameters. *)
Section XML.

Variable ParseFloat : string -> result float.
Variable LoadLocation : string -> result Location.
Variable cAPIURLPrefix : string.
Variable urlParse : string -> result URL.
Variable decodeRouteSummaryForStop : string -> result rawRouteSummaryForStop.t.
Variable decodeNextTripsForStop : string -> result rawNextTripsForStop.t.
Variable decodeNextTripsForStopAllRoutes : string -> result rawNextTripsForStopAllRoutes.t.

(** The body shared by the three endpoints: [u, err := url.Parse(
    c.cAPIURLPrefix + method); if err != nil { return nil, err }], the
    request, [dec.Decode(data); if err != nil { return nil, err }] and
    [return data.cook()]. *)
Definition xmlCall {R C} (method : string) (v : Values)
  (decode : string -> result R) (cook : R -> result C) : Post (result C) :=
  match urlParse (cAPIURLPrefix ++ method) with
  | Err e => Answer (Err e)
  | Ok u =>
      PostForm (URLString u) (Encode v) (fun resp =>
        match resp with
        | Err e => Answer (Err e)
        | Ok body => Answer (let? data := decode body in cook data)
        end)
  end.

(** [func (c Connection) GetRouteSummaryForStop(ctx, stopNo)] *)
Definition GetRouteSummaryForStop (c : Connection) (stopNo : string)
  : Post (result RouteSummaryForStop.t) :=
  xmlCall "GetRouteSummaryForStop"
    (VSet "stopNo" stopNo (VSet "apiKey" (ConnKey c) (VSet "appID" (ConnID c) ∅)))
    decodeRouteSummaryForStop cookRouteSummaryForStop.

(** [func (c Connection) GetNextTripsForStop(ctx, routeNo, stopNo)] *)
Definition GetNextTripsForStop (c : Connection) (routeNo stopNo : string)
  : Post (result NextTripsForStop.t) :=
  xmlCall "GetNextTripsForStop"
    (VSet "stopNo" stopNo (VSet "routeNo" routeNo
       (VSet "apiKey" (ConnKey c) (VSet "appID" (ConnID c) ∅))))
    decodeNextTripsForStop (cookNextTripsForStop ParseFloat LoadLocation).

(** [func (c Connection) GetNextTripsForStopAllRoutes(ctx, stopNo)] *)
Definition GetNextTripsForStopAllRoutes (c : Connection) (stopNo : string)
  : Post (result NextTripsForStopAllRoutes.t) :=
  xmlCall "GetNextTripsForStopAllRoutes"
    (VSet "stopNo" stopNo (VSet "apiKey" (ConnKey c) (VSet "appID" (ConnID c) ∅)))
    decodeNextTripsForStopAllRoutes (cookNextTripsForStopAllRoutes ParseFloat).

End XML.

(** ** A decimal instance of [strconv.ParseFloat] for concrete runs

    [ParseFloatExample] reads [[+-]digits[.digits]] with fewer than 2^53
    as the digit value and at most 15 fractional digits, as
    [digits / 10^k]: both operands are exact doubles, so the correctly
    rounded division gives the double [strconv.ParseFloat(s, 64)] gives
    (Go's own exact fast path).  It rejects the other strings, the empty
    one included (Go also accepts exponents, [inf], [nan], hex floats and
    underscores, which the examples do not use). *)
Definition floatOfZ (n : Z) : float := PrimFloat.of_uint63 (Uint63.of_Z n).

Definition ParseFloatExample (s : string) : result float :=
  let '(neg, body) :=
    match s with
    | String "-" r => (true, r)
    | String "+" r => (false, r)
    | _ => (false, s)
    end in
  let '(ip, fp, dot) := cutOn "." body in
  let fracOk := if dot then negb (String.eqb fp "") else true in
  match digitsVal ip, (if String.eqb fp "" then Some 0%Z else digitsVal fp) with
  | Some i, Some f =>
      let k := Z.of_nat (String.length fp) in
      let n := (i * 10 ^ k + f)%Z in
      if fracOk && (n <? 2 ^ 53)%Z && (k <=? 15)%Z then
        let x := (floatOfZ n / floatOfZ (10 ^ k))%float in
        Ok (if neg then (- x)%float else x)
      else Err (NumError "ParseFloat" s ErrSyntax)
  | _, _ => Err (NumError "ParseFloat" s ErrSyntax)
  end.

(** A time zone database that has every zone. *)
Definition LoadLocationExample (name : string) : result Location := Ok (mkLocation name).

(** ** An instance of [json.NewDecoder(body).Decode(&GTFSAgency{})]

    [encoding/json] keeps decoding after a value of the wrong JSON type:
    it fills every field it can and answers the first
    [*json.UnmarshalTypeError].  [agencyTypeErrorBody] is
    [{"Gtfs":[{"id":"1","agency_name":5}]}]; its decode fills the row id
    and reports the number found for [agency_name]. *)
Definition dq : string := String (Ascii.ascii_of_nat 34) EmptyString.

Definition agencyTypeErrorBody : string :=
  "{" ++ dq ++ "Gtfs" ++ dq ++ ":[{" ++ dq ++ "id" ++ dq ++ ":" ++ dq ++ "1" ++ dq ++
  "," ++ dq ++ "agency_name" ++ dq ++ ":5}]}".

Definition emptyGTFSQuery : GTFSQuery := mkGTFSQuery "" "" "" "" "".

Definition decodeAgencyExample (body : string) : GTFSAgency * option error :=
  if String.eqb body agencyTypeErrorBody
  then (mkGTFSAgency emptyGTFSQuery [mkAgencyRow "1" "" "" "" "" ""],
        Some (DecodeError "json: cannot unmarshal number into Go struct field .Gtfs.agency_name of type string"))
  else (mkGTFSAgency emptyGTFSQuery [], Some (DecodeError "unexpected end of JSON input")).

(** ** Specification predicates *)

(** The codes [checkErrorCode] turns into errors. *)
Definition sentinelCodes : list string := ["1"; "2"; "10"; "11"; "12"].

Definition isErr {A} (r : result A) : Prop := match r with Err _ => True | Ok _ => False end.

(** All bytes are decimal digits. *)
Fixpoint allDigits (s : string) : bool :=
  match s with
  | EmptyString => true
  | String c r => isDigit c && allDigits r
  end.

(** What may follow the fourteen digits: nothing, or ['.'] or [','] and
    at least one digit. *)
Definition fracShape (f : string) : bool :=
  match f with
  | EmptyString => true
  | String c ds => commaOrPeriod c && negb (String.eqb ds "") && allDigits ds
  end.

(** An optional wrapper read from the wire text [raw] with [parse]. *)
Definition optionalFrom {T} (parse : string -> result T) (zero : T) (raw : string)
  (o : OptionalScalar T) : Prop :=
  (raw = "" /\ o = mkOpt false zero) \/
  (raw <> "" /\ IsSet o = true /\ parse raw = Ok (Value o)).

(** The map [url.ParseQuery] builds from a list of pairs. *)
Definition addPair (acc : Values) (p : string * string) : Values := VAdd p.1 p.2 acc.

(** The pairs [Encode] writes, in its order. *)
Definition encodedPairs (m : Values) : list (string * string) :=
  flat_map (fun k => map (pair k) (default [] (m !! k))) (sortedKeys m).

(** The values a list of pairs gives to [k], in order. *)
Definition valuesFor (k : string) (ps : list (string * string)) : list string :=
  map snd (List.filter (fun p => String.eqb p.1 k) ps).


(** A fourteen-digit stamp written from its fields, zero padded. *)
Definition pad2 (n : Z) : string :=
  String (digitChar (n / 10)%Z) (String (digitChar (n mod 10)%Z) EmptyString).

Definition pad4 (y : Z) : string :=
  String (digitChar (y / 1000)) (String (digitChar (y / 100 mod 10))
    (String (digitChar (y / 10 mod 10)) (String (digitChar (y mod 10)) EmptyString))).

(** The sign [Atoi] strips, as a function of the first byte. *)
Definition signSplit (s : string) : bool * string :=
  match s with
  | String c r =>
      if Ascii.eqb c "-" then (true, r) else if Ascii.eqb c "+" then (false, r) else (false, s)
  | EmptyString => (false, EmptyString)
  end.

(** [url.ParseQuery] drops a key whose value list is empty. *)
Definition nonEmpty (o : option (list string)) : option (list string) :=
  match o with Some [] => None | _ => o end.

(** The query-modifier options the package exports. *)
Definition packageOption (o : QueryOption) : Prop :=
  (exists i, o = ID i) \/ (exists col val, o = ColumnAndValue col val) \/
  (exists s, o = OrderBy s) \/ (exists n, o = Limit n) \/
  o = Direction "asc" \/ o = Direction "desc".

(** A GTFS call that reaches the network asks the [Gtfs] address for the
    table [t], with a query [url.ParseQuery] reads without error. *)
Definition requestsTable {A} (r : Net A) (t : string) : Prop :=
  match r with
  | Fetch url _ => exists q, url = URLString (mkURL (APIURLPrefix ++ "Gtfs") q) /\
                     snd (ParseQuery q) = None /\ VGet "table" (fst (ParseQuery q)) = t
  | Done _ => True
  end.

(** The keys [setupGTFSURL] fills from the connection and the call. *)
Definition credKeys : list string := ["appID"; "apiKey"; "format"; "table"].

(** A [GetNextTripsForStop] answer with one route direction and no trips. *)
Definition nextTripsExample : rawNextTripsForStop.t :=
  rawNextTripsForStop.mk "3017" "TERRY FOX" ""
    [rawRouteDirection.mk "95" "Orleans" "Eastbound" "" "20180831114042" []].

(** A time zone database that has no zone. *)
Definition noZoneDatabase (name : string) : result Location := Err (LoadLocationError name).

(** The query-modifier options of [gtfs.go]. *)
Definition gtfsGoOption (o : QueryOption) : Prop :=
  (exists i, o = gtfs_go.ID i) \/ (exists col, o = gtfs_go.Column col) \/
  (exists val, o = gtfs_go.Value val) \/ (exists s, o = gtfs_go.OrderBy s) \/
  (exists dir, o = gtfs_go.Direction dir) \/ (exists n, o = gtfs_go.Limit n).

(** * Theorems *)

Lemma checkErrorCode_eq (s : string) :
  checkErrorCode s =
    if String.eqb s "1" then ("", Some (APIError "error returned from API - Invalid API key"))
    else if String.eqb s "2" then ("", Some (APIError "error returned from API - Unable to query data source"))
    else if String.eqb s "10" then ("", Some (APIError "error returned from API - Invalid stop number"))
    else if String.eqb s "11" then ("", Some (APIError "error returned from API - Invalid route number"))
    else if String.eqb s "12" then ("", Some (APIError "error returned from API - Stop does not service route"))
    else (s, None).
Proof.
  destruct s as [|a s]; [reflexivity|].
  destruct a as [[] [] [] [] [] [] [] []]; try reflexivity;
  destruct s as [|b s]; try reflexivity;
  destruct b as [[] [] [] [] [] [] [] []]; try reflexivity;
  destruct s; reflexivity.
Qed.

(** C1: [checkErrorCode] maps exactly ["1"], ["2"], ["10"], ["11"] and
    ["12"] to the errors invalid API key, unable to query data source,
    invalid stop number, invalid route number and stop does not service
    route, each with an empty info string; every other string (the empty
    string and ["TestErrorStringHere"] among them) comes back unchanged as
    the info string, with no error. *)
Theorem checkErrorCode_spec :
  checkErrorCode "1" = ("", Some (APIError "error returned from API - Invalid API key")) /\
  checkErrorCode "2" = ("", Some (APIError "error returned from API - Unable to query data source")) /\
  checkErrorCode "10" = ("", Some (APIError "error returned from API - Invalid stop number")) /\
  checkErrorCode "11" = ("", Some (APIError "error returned from API - Invalid route number")) /\
  checkErrorCode "12" = ("", Some (APIError "error returned from API - Stop does not service route")) /\
  (forall s : string, snd (checkErrorCode s) = None <-> ~ In s sentinelCodes) /\
  (forall s : string, ~ In s sentinelCodes -> checkErrorCode s = (s, None)) /\
  checkErrorCode "" = ("", None) /\
  checkErrorCode "TestErrorStringHere" = ("TestErrorStringHere", None).
Proof.
  assert (Hother : forall s : string, ~ In s sentinelCodes -> checkErrorCode s = (s, None)).
  { intros s Hs. rewrite checkErrorCode_eq.
    destruct (String.eqb_spec s "1"); [subst; simpl in Hs; tauto|].
    destruct (String.eqb_spec s "2"); [subst; simpl in Hs; tauto|].
    destruct (String.eqb_spec s "10"); [subst; simpl in Hs; tauto|].
    destruct (String.eqb_spec s "11"); [subst; simpl in Hs; tauto|].
    destruct (String.eqb_spec s "12"); [subst; simpl in Hs; tauto|].
    reflexivity. }
  repeat split; try reflexivity; try exact Hother.
  - intros Hnone Hin. simpl in Hin.
    destruct Hin as [<-|[<-|[<-|[<-|[<-|[]]]]]]; discriminate.
  - intros Hs. rewrite (Hother s Hs). reflexivity.
Qed.

(** An optional wrapper is set exactly when its text is non-empty, and
    holds the zero value when unset. *)
Lemma optionalFrom_set {T} (parse : string -> result T) (zero : T) (raw : string)
  (o : OptionalScalar T) :
  optionalFrom parse zero raw o ->
  IsSet o = negb (String.eqb raw "") /\ (IsSet o = false -> Value o = zero).
Proof.
  intros [[-> ->]|(Hne & Hs & _)].
  - split; reflexivity.
  - apply String.eqb_neq in Hne. rewrite Hne, Hs. split; [reflexivity|discriminate].
Qed.

(** ** The cooking pipeline *)

Section CookingFacts.

Variable ParseFloat : string -> result float.
Variable LoadLocation : string -> result Location.

Lemma optional_bool_ok (raw : string) (o : OptionalScalar bool) :
  (if String.eqb raw "" then Ok noBool
   else match ParseBool raw with Ok b => Ok (mkOpt true b) | Err e => Err e end) = Ok o ->
  optionalFrom ParseBool false raw o.
Proof.
  unfold optionalFrom. destruct (String.eqb_spec raw "") as [->|Hne].
  - intros H. injection H as <-. left. split; reflexivity.
  - destruct (ParseBool raw) eqn:E; intros H; [|discriminate].
    injection H as <-. right. simpl. auto.
Qed.

Lemma optional_float_ok (raw : string) (o : OptionalScalar float) :
  (if String.eqb raw "" then Ok noFloat
   else match ParseFloat raw with Ok x => Ok (mkOpt true x) | Err e => Err e end) = Ok o ->
  optionalFrom ParseFloat 0%float raw o.
Proof.
  unfold optionalFrom. destruct (String.eqb_spec raw "") as [->|Hne].
  - intros H. injection H as <-. left. split; reflexivity.
  - destruct (ParseFloat raw) eqn:E; intros H; [|discriminate].
    injection H as <-. right. simpl. auto.
Qed.

(** What a successful [convert] returns, field by field. *)
Lemma convert_ok (t : rawXMLTrip.t) (ct : Trip.t) :
  convert ParseFloat t = (ct, None) ->
  Trip.TripDestination ct = rawXMLTrip.TripDestination t /\
  Trip.TripStartTime ct = rawXMLTrip.TripStartTime t /\
  Atoi (rawXMLTrip.AdjustedScheduleTime t) = Ok (Trip.AdjustedScheduleTime ct) /\
  ParseFloat (rawXMLTrip.AdjustmentAge t) = Ok (Trip.AdjustmentAge ct) /\
  optionalFrom ParseBool false (rawXMLTrip.LastTripOfSchedule t) (Trip.LastTripOfSchedule ct) /\
  Trip.BusType ct = rawXMLTrip.BusType t /\
  optionalFrom ParseFloat 0%float (rawXMLTrip.Latitude t) (Trip.Latitude ct) /\
  optionalFrom ParseFloat 0%float (rawXMLTrip.Longitude t) (Trip.Longitude ct) /\
  optionalFrom ParseFloat 0%float (rawXMLTrip.GPSSpeed t) (Trip.GPSSpeed ct).
Proof.
  unfold convert.
  destruct (Atoi _) as [ast|] eqn:E1; [|discriminate].
  destruct (ParseFloat (rawXMLTrip.AdjustmentAge t)) as [age|] eqn:E2; [|discriminate].
  destruct (if String.eqb (rawXMLTrip.LastTripOfSchedule t) "" then _ else _)
    as [lts|] eqn:E3; [|discriminate].
  destruct (if String.eqb (rawXMLTrip.Latitude t) "" then _ else _)
    as [lat|] eqn:E4; [|discriminate].
  destruct (if String.eqb (rawXMLTrip.Longitude t) "" then _ else _)
    as [lon|] eqn:E5; [|discriminate].
  destruct (if String.eqb (rawXMLTrip.GPSSpeed t) "" then _ else _)
    as [gps|] eqn:E6; [|discriminate].
  intros H. injection H as <-. simpl.
  repeat split; auto using optional_bool_ok, optional_float_ok.
Qed.

(** [convert] fails when a mandatory field does not parse. *)
Lemma convert_mandatory_err (t : rawXMLTrip.t) :
  isErr (Atoi (rawXMLTrip.AdjustedScheduleTime t)) \/
  isErr (ParseFloat (rawXMLTrip.AdjustmentAge t)) ->
  exists e, snd (convert ParseFloat t) = Some e.
Proof.
  unfold convert. intros [H|H].
  - destruct (Atoi _) as [|e]; [contradiction|]. eauto.
  - destruct (Atoi _) as [ast|e]; [|eauto].
    destruct (ParseFloat _) as [|e]; [contradiction|]. eauto.
Qed.

(** [convert] fails when an optional field is non-empty and does not parse. *)
Lemma convert_optional_err (t : rawXMLTrip.t) :
  (rawXMLTrip.LastTripOfSchedule t <> "" /\ isErr (ParseBool (rawXMLTrip.LastTripOfSchedule t))) \/
  (rawXMLTrip.Latitude t <> "" /\ isErr (ParseFloat (rawXMLTrip.Latitude t))) \/
  (rawXMLTrip.Longitude t <> "" /\ isErr (ParseFloat (rawXMLTrip.Longitude t))) \/
  (rawXMLTrip.GPSSpeed t <> "" /\ isErr (ParseFloat (rawXMLTrip.GPSSpeed t))) ->
  exists e, snd (convert ParseFloat t) = Some e.
Proof.
  intros H. destruct (snd (convert ParseFloat t)) as [e|] eqn:E; [eauto|].
  exfalso. destruct (convert ParseFloat t) as [ct err] eqn:Ec. simpl in E. subst err.
  apply convert_ok in Ec.
  destruct Ec as (_ & _ & _ & _ & Hl & _ & Ha & Ho & Hg).
  unfold optionalFrom in *.
  destruct H as [[Hne Hp]|[[Hne Hp]|[[Hne Hp]|[Hne Hp]]]].
  - destruct Hl as [[? _]|(_ & _ & Hq)]; [contradiction|]. rewrite Hq in Hp. exact Hp.
  - destruct Ha as [[? _]|(_ & _ & Hq)]; [contradiction|]. rewrite Hq in Hp. exact Hp.
  - destruct Ho as [[? _]|(_ & _ & Hq)]; [contradiction|]. rewrite Hq in Hp. exact Hp.
  - destruct Hg as [[? _]|(_ & _ & Hq)]; [contradiction|]. rewrite Hq in Hp. exact Hp.
Qed.

Lemma convertTrips_ok (ts : list rawXMLTrip.t) (cts : list Trip.t) :
  convertTrips ParseFloat ts = Ok cts ->
  Forall2 (fun t ct => convert ParseFloat t = (ct, None)) ts cts.
Proof.
  revert cts. induction ts as [|t ts IH]; intros cts H; simpl in H.
  - injection H as <-. constructor.
  - destruct (convert ParseFloat t) as [ct [e|]] eqn:E; [discriminate|].
    destruct (convertTrips ParseFloat ts) as [rest|] eqn:E'; simpl in H; [|discriminate].
    injection H as <-. constructor; auto.
Qed.

Lemma convertTrips_err (ts : list rawXMLTrip.t) (t : rawXMLTrip.t) :
  In t ts -> (exists e, snd (convert ParseFloat t) = Some e) ->
  isErr (convertTrips ParseFloat ts).
Proof.
  intros Hin [e He]. induction ts as [|t' ts IH]; [destruct Hin|]; simpl.
  destruct Hin as [->|Hin].
  - destruct (convert ParseFloat t) as [ct err]. simpl in He. subst. exact I.
  - destruct (convert ParseFloat t') as [ct [e'|]]; [exact I|].
    specialize (IH Hin). destruct (convertTrips ParseFloat ts); [contradiction|exact I].
Qed.

Lemma cookRouteDirections_ok (rds : list rawRouteDirection.t) (crds : list RouteDirection.t) :
  cookRouteDirections ParseFloat LoadLocation rds = Ok crds ->
  Forall2 (fun rd crd => cookRouteDirection ParseFloat LoadLocation rd = Ok crd) rds crds.
Proof.
  revert crds. induction rds as [|rd rds IH]; intros crds H; simpl in H.
  - injection H as <-. constructor.
  - destruct (cookRouteDirection ParseFloat LoadLocation rd) eqn:E; simpl in H; [|discriminate].
    destruct (cookRouteDirections ParseFloat LoadLocation rds) eqn:E'; simpl in H; [|discriminate].
    injection H as <-. constructor; auto.
Qed.

Lemma cookRouteDirections_err (rds : list rawRouteDirection.t) (rd : rawRouteDirection.t) :
  In rd rds -> isErr (cookRouteDirection ParseFloat LoadLocation rd) ->
  isErr (cookRouteDirections ParseFloat LoadLocation rds).
Proof.
  intros Hin He. induction rds as [|rd' rds IH]; [destruct Hin|]; simpl.
  destruct Hin as [->|Hin].
  - destruct (cookRouteDirection ParseFloat LoadLocation rd); [contradiction|exact I].
  - destruct (cookRouteDirection ParseFloat LoadLocation rd'); simpl; [|exact I].
    specialize (IH Hin). destruct (cookRouteDirections ParseFloat LoadLocation rds);
      [contradiction|exact I].
Qed.

Lemma cookRoutesWithTrips_ok (rts : list rawRouteWithTrips.t) (crts : list RouteWithTrips.t) :
  cookRoutesWithTrips ParseFloat rts = Ok crts ->
  Forall2 (fun rt crt => cookRouteWithTrips ParseFloat rt = Ok crt) rts crts.
Proof.
  revert crts. induction rts as [|rt rts IH]; intros crts H; simpl in H.
  - injection H as <-. constructor.
  - destruct (cookRouteWithTrips ParseFloat rt) eqn:E; simpl in H; [|discriminate].
    destruct (cookRoutesWithTrips ParseFloat rts) eqn:E'; simpl in H; [|discriminate].
    injection H as <-. constructor; auto.
Qed.

Lemma cookRoutesWithTrips_err (rts : list rawRouteWithTrips.t) (rt : rawRouteWithTrips.t) :
  In rt rts -> isErr (cookRouteWithTrips ParseFloat rt) ->
  isErr (cookRoutesWithTrips ParseFloat rts).
Proof.
  intros Hin He. induction rts as [|rt' rts IH]; [destruct Hin|]; simpl.
  destruct Hin as [->|Hin].
  - destruct (cookRouteWithTrips ParseFloat rt); [contradiction|exact I].
  - destruct (cookRouteWithTrips ParseFloat rt'); simpl; [|exact I].
    specialize (IH Hin). destruct (cookRoutesWithTrips ParseFloat rts);
      [contradiction|exact I].
Qed.

Lemma rbind_err {A B} (r : result A) (k : A -> result B) :
  isErr r -> isErr (rbind r k).
Proof. destruct r; simpl; tauto. Qed.

Lemma rbind_err_k {A B} (r : result A) (k : A -> result B) :
  (forall a, isErr (k a)) -> isErr (rbind r k).
Proof. destruct r; simpl; auto. Qed.

(** A trip that fails to convert makes its route direction fail. *)
Lemma cookRouteDirection_trip_err (rd : rawRouteDirection.t) (t : rawXMLTrip.t) :
  In t (rawRouteDirection.Trips rd) -> (exists e, snd (convert ParseFloat t) = Some e) ->
  isErr (cookRouteDirection ParseFloat LoadLocation rd).
Proof.
  intros Hin He. unfold cookRouteDirection.
  apply rbind_err_k; intros ?. apply rbind_err_k; intros ?. apply rbind_err_k; intros ?.
  apply rbind_err. eapply convertTrips_err; eauto.
Qed.

Lemma cookRouteWithTrips_trip_err (rt : rawRouteWithTrips.t) (t : rawXMLTrip.t) :
  In t (rawRouteWithTrips.Trips rt) -> (exists e, snd (convert ParseFloat t) = Some e) ->
  isErr (cookRouteWithTrips ParseFloat rt).
Proof.
  intros Hin He. unfold cookRouteWithTrips.
  apply rbind_err. eapply convertTrips_err; eauto.
Qed.

(** A failing route direction makes the whole cook fail. *)
Lemma cookNextTripsForStop_rd_err (d : rawNextTripsForStop.t) (rd : rawRouteDirection.t) :
  In rd (rawNextTripsForStop.RouteDirection d) ->
  isErr (cookRouteDirection ParseFloat LoadLocation rd) ->
  isErr (cookNextTripsForStop ParseFloat LoadLocation d).
Proof.
  intros Hin He. unfold cookNextTripsForStop.
  apply rbind_err_k; intros ?. apply rbind_err. eapply cookRouteDirections_err; eauto.
Qed.

Lemma cookNextTripsForStopAllRoutes_rt_err (d : rawNextTripsForStopAllRoutes.t)
  (rt : rawRouteWithTrips.t) :
  In rt (rawNextTripsForStopAllRoutes.Routes d) ->
  isErr (cookRouteWithTrips ParseFloat rt) ->
  isErr (cookNextTripsForStopAllRoutes ParseFloat d).
Proof.
  intros Hin He. unfold cookNextTripsForStopAllRoutes.
  apply rbind_err_k; intros ?. apply rbind_err. eapply cookRoutesWithTrips_err; eauto.
Qed.

(** A trip that fails to convert, anywhere in a response, makes its cook fail. *)
Lemma cooks_trip_err (t : rawXMLTrip.t) :
  (exists e, snd (convert ParseFloat t) = Some e) ->
  (forall (d : rawNextTripsForStop.t) (rd : rawRouteDirection.t),
     In rd (rawNextTripsForStop.RouteDirection d) -> In t (rawRouteDirection.Trips rd) ->
     isErr (cookNextTripsForStop ParseFloat LoadLocation d)) /\
  (forall (d : rawNextTripsForStopAllRoutes.t) (rt : rawRouteWithTrips.t),
     In rt (rawNextTripsForStopAllRoutes.Routes d) -> In t (rawRouteWithTrips.Trips rt) ->
     isErr (cookNextTripsForStopAllRoutes ParseFloat d)).
Proof.
  intros He. split.
  - intros d rd Hrd Ht. eapply cookNextTripsForStop_rd_err; eauto.
    eapply cookRouteDirection_trip_err; eauto.
  - intros d rt Hrt Ht. eapply cookNextTripsForStopAllRoutes_rt_err; eauto.
    eapply cookRouteWithTrips_trip_err; eauto.
Qed.

End CookingFacts.

(** C10: after a successful [convert], each optional wrapper is set
    exactly when its wire text is non-empty, and an unset wrapper holds
    the zero value ([false] or [0.0]). *)
Theorem convert_optional_invariant (ParseFloat : string -> result float)
  (t : rawXMLTrip.t) (ct : Trip.t) (H : convert ParseFloat t = (ct, None)) :
  IsSet (Trip.LastTripOfSchedule ct) = negb (String.eqb (rawXMLTrip.LastTripOfSchedule t) "") /\
  (IsSet (Trip.LastTripOfSchedule ct) = false -> Value (Trip.LastTripOfSchedule ct) = false) /\
  IsSet (Trip.Latitude ct) = negb (String.eqb (rawXMLTrip.Latitude t) "") /\
  (IsSet (Trip.Latitude ct) = false -> Value (Trip.Latitude ct) = 0%float) /\
  IsSet (Trip.Longitude ct) = negb (String.eqb (rawXMLTrip.Longitude t) "") /\
  (IsSet (Trip.Longitude ct) = false -> Value (Trip.Longitude ct) = 0%float) /\
  IsSet (Trip.GPSSpeed ct) = negb (String.eqb (rawXMLTrip.GPSSpeed t) "") /\
  (IsSet (Trip.GPSSpeed ct) = false -> Value (Trip.GPSSpeed ct) = 0%float).
Proof.
  apply convert_ok in H.
  destruct H as (_ & _ & _ & _ & Hl & _ & Ha & Ho & Hg).
  apply optionalFrom_set in Hl, Ha, Ho, Hg.
  tauto.
Qed.

Lemma convert_optional_invariant_witness :
  convert ParseFloatExample
    (rawXMLTrip.mk "Greenboro" "11:30" "5" "0.5" "" "4LB" "45.5" "" "") =
    (Trip.mk "Greenboro" "11:30" 5 0.5 noBool "4LB" (mkOpt true 45.5%float) noFloat noFloat,
     None) /\
  IsSet (mkOpt true 45.5%float) =
    negb (String.eqb "45.5" "") /\
  (IsSet (noFloat) = false -> Value (noFloat) = 0%float).
Proof.
  assert (H : convert ParseFloatExample
    (rawXMLTrip.mk "Greenboro" "11:30" "5" "0.5" "" "4LB" "45.5" "" "") =
    (Trip.mk "Greenboro" "11:30" 5 0.5 noBool "4LB" (mkOpt true 45.5%float) noFloat noFloat,
     None)) by (vm_compute; reflexivity).
  split; [exact H|].
  pose proof (convert_optional_invariant ParseFloatExample _ _ H) as Hi. simpl in Hi.
  split; [apply Hi|apply Hi].
Defined.

(** C2 (counterexample): when an optional field is non-empty and does not
    parse, [convert] returns the error together with the trip filled so
    far, not without a trip. *)
Lemma convert_returns_partial_trip :
  convert ParseFloatExample
    (rawXMLTrip.mk "Greenboro" "11:30" "5" "0.5" "maybe" "4LB" "" "" "") =
    (Trip.mk "Greenboro" "11:30" 5 0.5 noBool "" noFloat noFloat noFloat,
     Some (NumError "ParseBool" "maybe" ErrSyntax)).
Proof. vm_compute. reflexivity. Qed.

(** C2 (amended): after a successful [convert], each optional field is
    absent when its wire text is empty and present with the parsed value
    otherwise; when an optional field's text is non-empty and does not
    parse, [convert] returns an error (with the partly filled trip, which
    the cooks drop) and the cook of any response containing the trip
    fails. *)
Theorem convert_optional_fields (ParseFloat : string -> result float)
  (LoadLocation : string -> result Location) (t : rawXMLTrip.t) :
  (forall ct : Trip.t, convert ParseFloat t = (ct, None) ->
     optionalFrom ParseBool false (rawXMLTrip.LastTripOfSchedule t) (Trip.LastTripOfSchedule ct) /\
     optionalFrom ParseFloat 0%float (rawXMLTrip.Latitude t) (Trip.Latitude ct) /\
     optionalFrom ParseFloat 0%float (rawXMLTrip.Longitude t) (Trip.Longitude ct) /\
     optionalFrom ParseFloat 0%float (rawXMLTrip.GPSSpeed t) (Trip.GPSSpeed ct)) /\
  ((rawXMLTrip.LastTripOfSchedule t <> "" /\ isErr (ParseBool (rawXMLTrip.LastTripOfSchedule t))) \/
   (rawXMLTrip.Latitude t <> "" /\ isErr (ParseFloat (rawXMLTrip.Latitude t))) \/
   (rawXMLTrip.Longitude t <> "" /\ isErr (ParseFloat (rawXMLTrip.Longitude t))) \/
   (rawXMLTrip.GPSSpeed t <> "" /\ isErr (ParseFloat (rawXMLTrip.GPSSpeed t))) ->
   (exists (ct : Trip.t) (e : error), convert ParseFloat t = (ct, Some e)) /\
   (forall (d : rawNextTripsForStop.t) (rd : rawRouteDirection.t),
      In rd (rawNextTripsForStop.RouteDirection d) -> In t (rawRouteDirection.Trips rd) ->
      isErr (cookNextTripsForStop ParseFloat LoadLocation d)) /\
   (forall (d : rawNextTripsForStopAllRoutes.t) (rt : rawRouteWithTrips.t),
      In rt (rawNextTripsForStopAllRoutes.Routes d) -> In t (rawRouteWithTrips.Trips rt) ->
      isErr (cookNextTripsForStopAllRoutes ParseFloat d))).
Proof.
  split.
  - intros ct H. apply convert_ok in H. tauto.
  - intros H. apply convert_optional_err in H.
    split; [|apply (cooks_trip_err ParseFloat LoadLocation t H)].
    destruct H as [e He]. destruct (convert ParseFloat t) as [ct err].
    simpl in He. subst. eauto.
Qed.

(** C3: a trip whose AdjustedScheduleTime does not parse as an integer or
    whose AdjustmentAge does not parse as a float (the empty text
    included) makes the cook of the whole response fail. *)
Theorem mandatory_fields_fail (ParseFloat : string -> result float)
  (LoadLocation : string -> result Location)
  (HPF : isErr (ParseFloat "")) :
  isErr (Atoi "") /\
  (forall t : rawXMLTrip.t,
     (isErr (Atoi (rawXMLTrip.AdjustedScheduleTime t)) \/
      isErr (ParseFloat (rawXMLTrip.AdjustmentAge t)) \/
      rawXMLTrip.AdjustedScheduleTime t = "" \/ rawXMLTrip.AdjustmentAge t = "") ->
     (forall (d : rawNextTripsForStop.t) (rd : rawRouteDirection.t),
        In rd (rawNextTripsForStop.RouteDirection d) -> In t (rawRouteDirection.Trips rd) ->
        isErr (cookNextTripsForStop ParseFloat LoadLocation d)) /\
     (forall (d : rawNextTripsForStopAllRoutes.t) (rt : rawRouteWithTrips.t),
        In rt (rawNextTripsForStopAllRoutes.Routes d) -> In t (rawRouteWithTrips.Trips rt) ->
        isErr (cookNextTripsForStopAllRoutes ParseFloat d))).
Proof.
  split; [exact I|].
  intros t Ht. apply cooks_trip_err. apply convert_mandatory_err.
  destruct Ht as [H|[H|[H|H]]]; auto.
  - left. rewrite H. exact I.
  - right. rewrite H. exact HPF.
Qed.

Lemma mandatory_fields_fail_witness :
  isErr (ParseFloatExample "") /\
  isErr (cookNextTripsForStop ParseFloatExample LoadLocationExample
    (rawNextTripsForStop.mk "3017" "RIDEAU" ""
       [rawRouteDirection.mk "95" "Barrhaven" "Southbound" "" "20180831114042"
          [rawXMLTrip.mk "Barrhaven" "11:30" "" "0.5" "" "" "" "" ""]])).
Proof.
  assert (HPF : isErr (ParseFloatExample "")) by exact I.
  split; [exact HPF|].
  destruct (mandatory_fields_fail ParseFloatExample LoadLocationExample HPF) as [_ H].
  apply (proj1 (H (rawXMLTrip.mk "Barrhaven" "11:30" "" "0.5" "" "" "" "" "")
    (or_intror (or_intror (or_introl eq_refl)))) _
    (rawRouteDirection.mk "95" "Barrhaven" "Southbound" "" "20180831114042"
       [rawXMLTrip.mk "Barrhaven" "11:30" "" "0.5" "" "" "" "" ""]));
    simpl; auto.
Defined.

(** ** The request processing time *)

Lemma str_app_cons (x : ascii) (a b : string) : String x a ++ b = String x (a ++ b).
Proof. reflexivity. Qed.

Lemma str_app_nil (b : string) : EmptyString ++ b = b.
Proof. reflexivity. Qed.

Lemma str_app_assoc (a b c : string) : (a ++ b) ++ c = a ++ (b ++ c).
Proof.
  induction a as [|x a IH]; [reflexivity|]. rewrite !str_app_cons. now rewrite IH.
Qed.

Lemma str_length_app (a b : string) :
  String.length (a ++ b) = (String.length a + String.length b)%nat.
Proof.
  induction a as [|x a IH]; [reflexivity|]. rewrite str_app_cons. simpl. now rewrite IH.
Qed.

Lemma allDigits_app (a b : string) :
  allDigits (a ++ b) = allDigits a && allDigits b.
Proof.
  induction a as [|x a IH]; [reflexivity|]. rewrite str_app_cons. simpl.
  rewrite IH. now rewrite andb_assoc.
Qed.

Lemma getyear_some (s r : string) (y : Z) :
  getyear s = Some (y, r) ->
  exists p, s = p ++ r /\ String.length p = 4%nat /\ allDigits p = true.
Proof.
  unfold getyear.
  destruct s as [|c0 [|c1 [|c2 [|c3 s]]]]; try discriminate.
  destruct (isDigit c0) eqn:E0; [|discriminate].
  unfold digitsVal, digitsAcc. rewrite E0.
  destruct (isDigit c1) eqn:E1; [|discriminate].
  destruct (isDigit c2) eqn:E2; [|discriminate].
  destruct (isDigit c3) eqn:E3; [|discriminate].
  intros H. injection H as _ <-.
  exists (String c0 (String c1 (String c2 (String c3 EmptyString)))).
  split; [reflexivity|split; [reflexivity|]]. cbn [allDigits]. now rewrite E0, E1, E2, E3.
Qed.

Lemma getnum_fixed_some (s r : string) (n : Z) :
  getnum s true = Some (n, r) ->
  exists p, s = p ++ r /\ String.length p = 2%nat /\ allDigits p = true.
Proof.
  unfold getnum. destruct s as [|c0 [|c1 s]]; try discriminate.
  - destruct (isDigit c0); discriminate.
  - destruct (isDigit c0) eqn:E0; [|discriminate].
    destruct (isDigit c1) eqn:E1; [|discriminate].
    intros H. injection H as _ <-.
    exists (String c0 (String c1 EmptyString)).
    split; [reflexivity|split; [reflexivity|]]. cbn [allDigits]. now rewrite E0, E1.
Qed.

Lemma getnum_fixed_head (s r : string) (n : Z) :
  getnum s true = Some (n, r) -> exists c s', s = String c s' /\ isDigit c = true.
Proof.
  intros H. apply getnum_fixed_some in H as (p & -> & Hl & Hd).
  destruct p as [|c p]; [discriminate|]. cbn [allDigits] in Hd.
  apply andb_true_iff in Hd as [Hc _]. eauto.
Qed.

Lemma getnum_free_some (s r : string) (n : Z) :
  getnum s false = Some (n, r) ->
  (exists p, s = p ++ r /\ String.length p = 2%nat /\ allDigits p = true) \/
  (exists c, s = String c r /\ isDigit c = true /\
     forall c' r', r = String c' r' -> isDigit c' = false).
Proof.
  unfold getnum. destruct s as [|c0 [|c1 s]]; try discriminate.
  - destruct (isDigit c0) eqn:E0; [|discriminate].
    intros H. injection H as _ <-. right. exists c0. split; [reflexivity|].
    split; [exact E0|]. intros c' r' Hr. discriminate.
  - destruct (isDigit c0) eqn:E0; [|discriminate].
    destruct (isDigit c1) eqn:E1.
    + intros H. injection H as _ <-. left.
      exists (String c0 (String c1 EmptyString)).
    split; [reflexivity|split; [reflexivity|]]. cbn [allDigits]. now rewrite E0, E1.
    + intros H. injection H as _ <-. right. exists c0. split; [reflexivity|].
      split; [exact E0|]. intros c' r' Hr. injection Hr as <- _. exact E1.
Qed.

Lemma skipStr_digitRun (r : string) :
  skipStr (digitRun r) r = EmptyString -> allDigits r = true.
Proof.
  induction r as [|x r IH]; [reflexivity|]. cbn [digitRun allDigits].
  destruct (isDigit x); cbn [skipStr andb]; [exact IH|discriminate].
Qed.

Lemma fracSecond_empty (s : string) (ns : Z) :
  fracSecond s = (ns, EmptyString) -> fracShape s = true.
Proof.
  unfold fracSecond. destruct s as [|c [|d r]]; [reflexivity|discriminate|].
  destruct (commaOrPeriod c && isDigit d) eqn:Ecd; [|discriminate].
  destruct (digitsVal _); [|discriminate].
  intros H. injection H as _ H. cbn [digitRun skipStr] in H.
  apply andb_true_iff in Ecd as [Ec Ed].
  apply skipStr_digitRun in H.
  cbn [fracShape allDigits]. rewrite Ec, Ed, H. reflexivity.
Qed.

(** A value [parseTime14] accepts is fourteen digits followed by nothing
    or by a fractional second. *)
Lemma parseTime14_shape (v : string) (tz : Location) (g : GoTime) :
  parseTime14 v tz = Ok g ->
  exists p f, v = p ++ f /\ String.length p = 14%nat /\ allDigits p = true /\
              fracShape f = true.
Proof.
  unfold parseTime14.
  destruct (getyear v) as [[y v1]|] eqn:Ey; [|discriminate].
  destruct (getnum v1 true) as [[mo v2]|] eqn:Emo; [|discriminate].
  destruct (negb _); [discriminate|].
  destruct (getnum v2 true) as [[d v3]|] eqn:Ed; [|discriminate].
  destruct (getnum v3 false) as [[h v4]|] eqn:Eh; [|discriminate].
  destruct (negb _); [discriminate|].
  destruct (getnum v4 true) as [[mi v5]|] eqn:Emi; [|discriminate].
  destruct (negb _); [discriminate|].
  destruct (getnum v5 true) as [[se v6]|] eqn:Ese; [|discriminate].
  destruct (negb _); [discriminate|].
  destruct (fracSecond v6) as [ns v7] eqn:Ef.
  destruct v7 as [|x v7]; [|discriminate].
  intros _.
  apply getyear_some in Ey as (p1 & -> & L1 & D1).
  apply getnum_fixed_some in Emo as (p2 & -> & L2 & D2).
  apply getnum_fixed_some in Ed as (p3 & -> & L3 & D3).
  pose proof (getnum_fixed_head _ _ _ Emi) as (c4 & s4 & Hv4 & Hc4).
  apply getnum_fixed_some in Emi as (p5 & -> & L5 & D5).
  apply getnum_fixed_some in Ese as (p6 & -> & L6 & D6).
  apply fracSecond_empty in Ef.
  apply getnum_free_some in Eh as [(p4 & -> & L4 & D4)|(c & _ & _ & Hnd)].
  - exists (p1 ++ p2 ++ p3 ++ p4 ++ p5 ++ p6), v6.
    rewrite !str_app_assoc, !str_length_app, !allDigits_app, L1, L2, L3, L4, L5, L6,
      D1, D2, D3, D4, D5, D6.
    auto.
  - rewrite (Hnd c4 s4 Hv4) in Hc4. discriminate.
Qed.

Lemma checkErrorCodeR_ok (s t : string) : checkErrorCodeR s = Ok t -> t = s.
Proof.
  unfold checkErrorCodeR. rewrite checkErrorCode_eq.
  repeat match goal with |- context [String.eqb ?a ?b] => destruct (String.eqb a b) end;
  try discriminate. intros H. now injection H.
Qed.

Lemma checkErrorCodeR_sentinel (s : string) : In s sentinelCodes -> isErr (checkErrorCodeR s).
Proof.
  intros Hin. destruct Hin as [<-|[<-|[<-|[<-|[<-|[]]]]]]; exact I.
Qed.

Section CookShape.

Variable ParseFloat : string -> result float.
Variable LoadLocation : string -> result Location.

Lemma cookRouteDirection_ok (rd : rawRouteDirection.t) (crd : RouteDirection.t) :
  cookRouteDirection ParseFloat LoadLocation rd = Ok crd ->
  exists tz,
    LoadLocation "America/Toronto" = Ok tz /\
    RouteDirection.RouteNo crd = rawRouteDirection.RouteNo rd /\
    RouteDirection.RouteLabel crd = rawRouteDirection.RouteLabel rd /\
    RouteDirection.Direction crd = rawRouteDirection.Direction rd /\
    checkErrorCodeR (rawRouteDirection.Error rd) = Ok (RouteDirection.Error crd) /\
    parseTime14 (rawRouteDirection.RequestProcessingTime rd) tz
      = Ok (RouteDirection.RequestProcessingTime crd) /\
    convertTrips ParseFloat (rawRouteDirection.Trips rd) = Ok (RouteDirection.Trips crd).
Proof.
  unfold cookRouteDirection.
  destruct (checkErrorCodeR _) as [et|] eqn:E1; simpl; [|discriminate].
  destruct (LoadLocation _) as [tz|] eqn:E2; simpl; [|discriminate].
  destruct (parseTime14 _ _) as [pt|] eqn:E3; simpl; [|discriminate].
  destruct (convertTrips _ _) as [ts|] eqn:E4; simpl; [|discriminate].
  intros H. injection H as <-. exists tz. simpl. auto 7.
Qed.

Lemma cookNextTripsForStop_ok (d : rawNextTripsForStop.t) (c : NextTripsForStop.t) :
  cookNextTripsForStop ParseFloat LoadLocation d = Ok c ->
  NextTripsForStop.StopNo c = rawNextTripsForStop.StopNo d /\
  NextTripsForStop.StopLabel c = rawNextTripsForStop.StopLabel d /\
  checkErrorCodeR (rawNextTripsForStop.Error d) = Ok (NextTripsForStop.Error c) /\
  Forall2 (fun rd crd => cookRouteDirection ParseFloat LoadLocation rd = Ok crd)
    (rawNextTripsForStop.RouteDirection d) (NextTripsForStop.RouteDirections c).
Proof.
  unfold cookNextTripsForStop.
  destruct (checkErrorCodeR _) as [et|] eqn:E1; simpl; [|discriminate].
  destruct (cookRouteDirections _ _ _) as [rds|] eqn:E2; simpl; [|discriminate].
  intros H. injection H as <-. simpl. auto using cookRouteDirections_ok.
Qed.

Lemma cookRouteWithTrips_ok (rt : rawRouteWithTrips.t) (crt : RouteWithTrips.t) :
  cookRouteWithTrips ParseFloat rt = Ok crt ->
  RouteWithTrips.RouteNo crt = rawRouteWithTrips.RouteNo rt /\
  RouteWithTrips.DirectionID crt = rawRouteWithTrips.DirectionID rt /\
  RouteWithTrips.Direction crt = rawRouteWithTrips.Direction rt /\
  RouteWithTrips.RouteHeading crt = rawRouteWithTrips.RouteHeading rt /\
  convertTrips ParseFloat (rawRouteWithTrips.Trips rt) = Ok (RouteWithTrips.Trips crt).
Proof.
  unfold cookRouteWithTrips.
  destruct (convertTrips _ _) as [ts|] eqn:E; simpl; [|discriminate].
  intros H. injection H as <-. simpl. auto.
Qed.

Lemma cookNextTripsForStopAllRoutes_ok (d : rawNextTripsForStopAllRoutes.t)
  (c : NextTripsForStopAllRoutes.t) :
  cookNextTripsForStopAllRoutes ParseFloat d = Ok c ->
  NextTripsForStopAllRoutes.StopNo c = rawNextTripsForStopAllRoutes.StopNo d /\
  NextTripsForStopAllRoutes.StopDescription c = rawNextTripsForStopAllRoutes.StopDescription d /\
  checkErrorCodeR (rawNextTripsForStopAllRoutes.Error d) = Ok (NextTripsForStopAllRoutes.Error c) /\
  Forall2 (fun rt crt => cookRouteWithTrips ParseFloat rt = Ok crt)
    (rawNextTripsForStopAllRoutes.Routes d) (NextTripsForStopAllRoutes.Routes c).
Proof.
  unfold cookNextTripsForStopAllRoutes.
  destruct (checkErrorCodeR _) as [et|] eqn:E1; simpl; [|discriminate].
  destruct (cookRoutesWithTrips _ _) as [rts|] eqn:E2; simpl; [|discriminate].
  intros H. injection H as <-. simpl. auto using cookRoutesWithTrips_ok.
Qed.

End CookShape.

Ltac zlia := Z.to_euclidean_division_equations; lia.

Lemma digitVal_range (c : ascii) : isDigit c = true -> (0 <= digitVal c <= 9)%Z.
Proof.
  unfold isDigit, digitVal. intros H. apply andb_true_iff in H as [H1 H2].
  apply Nat.leb_le in H1, H2. lia.
Qed.

Lemma digitChar_ok (k : Z) : (0 <= k <= 9)%Z ->
  isDigit (digitChar k) = true /\ digitVal (digitChar k) = k.
Proof.
  intros Hk.
  assert (k = 0 \/ k = 1 \/ k = 2 \/ k = 3 \/ k = 4 \/ k = 5 \/ k = 6 \/ k = 7 \/ k = 8 \/ k = 9)%Z
    as Hc by lia.
  repeat destruct Hc as [->|Hc]; try (split; reflexivity). subst. split; reflexivity.
Qed.

Lemma digitsAcc_bound (s : string) (a x : Z) :
  digitsAcc a s = Some x -> (0 <= a)%Z ->
  (a * 10 ^ Z.of_nat (String.length s) <= x < (a + 1) * 10 ^ Z.of_nat (String.length s))%Z.
Proof.
  revert a. induction s as [|c s IH]; intros a H Ha; cbn [digitsAcc] in H.
  - injection H as <-. simpl. lia.
  - destruct (isDigit c) eqn:Ec; [|discriminate].
    pose proof (digitVal_range c Ec) as Hd.
    apply IH in H; [|lia]. cbn [String.length]. rewrite Nat2Z.inj_succ, Z.pow_succ_r by lia.
    nia.
Qed.

Lemma getnum_range (s r : string) (b : bool) (n : Z) :
  getnum s b = Some (n, r) -> (0 <= n <= 99)%Z.
Proof.
  unfold getnum. destruct s as [|c0 s]; [discriminate|].
  destruct (isDigit c0) eqn:E0; [|discriminate]. pose proof (digitVal_range _ E0) as D0.
  destruct s as [|c1 s].
  - destruct b; [discriminate|]. intros H. injection H as <- _. lia.
  - destruct (isDigit c1) eqn:E1.
    + pose proof (digitVal_range _ E1) as D1. intros H. injection H as <- _. lia.
    + destruct b; [discriminate|]. intros H. injection H as <- _. lia.
Qed.

Lemma getyear_range (s r : string) (y : Z) :
  getyear s = Some (y, r) -> (0 <= y <= 9999)%Z.
Proof.
  unfold getyear. destruct s as [|c0 [|c1 [|c2 [|c3 s]]]]; try discriminate.
  destruct (isDigit c0); [|discriminate].
  destruct (digitsVal _) as [y'|] eqn:E; [|discriminate].
  intros H. injection H as <- _. unfold digitsVal in E.
  apply digitsAcc_bound in E; [|lia]. simpl in E. lia.
Qed.

Lemma substring_length (m : nat) (s : string) : (String.length (substring 0 m s) <= m)%nat.
Proof.
  revert s. induction m as [|m IH]; intros s; destruct s; simpl; try lia.
  specialize (IH s). lia.
Qed.

Lemma fracSecond_range (s : string) : (0 <= fst (fracSecond s) < 10 ^ 9)%Z.
Proof.
  unfold fracSecond. destruct s as [|c [|d r]]; [cbn [fst]; lia|cbn [fst]; lia|].
  destruct (commaOrPeriod c && isDigit d); [|cbn [fst]; lia].
  set (m := Nat.min (S (digitRun r)) 9).
  assert (Hm : (m <= 9)%nat) by (unfold m; lia).
  destruct (digitsVal (substring 0 m (String d r))) as [ns|] eqn:E; cbn [fst]; [|lia].
  pose proof (substring_length m (String d r)) as Hl.
  destruct (substring 0 m (String d r)) as [|c0 t] eqn:Es; [discriminate|].
  unfold digitsVal in E. apply digitsAcc_bound in E; [|lia].
  set (len := String.length (String c0 t)) in *.
  assert (H10 : (10 ^ Z.of_nat len * 10 ^ (9 - Z.of_nat m) <= 10 ^ 9)%Z).
  { rewrite <- Z.pow_add_r by lia. apply Z.pow_le_mono_r; lia. }
  assert (0 < 10 ^ (9 - Z.of_nat m))%Z by (apply Z.pow_pos_nonneg; lia).
  nia.
Qed.

Lemma negb_range_false (a b c : Z) :
  negb ((a <=? b) && (b <=? c))%Z = false -> (a <= b <= c)%Z.
Proof.
  intros H. apply negb_false_iff, andb_true_iff in H as [H1 H2].
  apply Z.leb_le in H1, H2. lia.
Qed.

Lemma negb_range_lt_false (a b c : Z) :
  negb ((a <=? b) && (b <? c))%Z = false -> (a <= b < c)%Z.
Proof.
  intros H. apply negb_false_iff, andb_true_iff in H as [H1 H2].
  apply Z.leb_le in H1. apply Z.ltb_lt in H2. lia.
Qed.

Lemma parseTime14_ranges (value : string) (tz : Location) (g : GoTime)
  (H : parseTime14 value tz = Ok g) :
  (0 <= year g <= 9999)%Z /\ (1 <= month g <= 12)%Z /\
  (1 <= day g <= daysIn (month g) (year g))%Z /\ (0 <= hour g < 24)%Z /\
  (0 <= minute g < 60)%Z /\ (0 <= second g < 60)%Z /\ (0 <= nsec g < 10 ^ 9)%Z /\
  loc g = tz.
Proof.
  revert H. unfold parseTime14.
  destruct (getyear value) as [[y v1]|] eqn:Ey; [|discriminate].
  destruct (getnum v1 true) as [[mo v2]|] eqn:Emo; [|discriminate].
  destruct (negb ((1 <=? mo) && (mo <=? 12))%Z) eqn:Rmo; [discriminate|].
  destruct (getnum v2 true) as [[d v3]|] eqn:Ed; [|discriminate].
  destruct (getnum v3 false) as [[h v4]|] eqn:Eh; [|discriminate].
  destruct (negb ((0 <=? h) && (h <? 24))%Z) eqn:Rh; [discriminate|].
  destruct (getnum v4 true) as [[mi v5]|] eqn:Emi; [|discriminate].
  destruct (negb ((0 <=? mi) && (mi <? 60))%Z) eqn:Rmi; [discriminate|].
  destruct (getnum v5 true) as [[se v6]|] eqn:Ese; [|discriminate].
  destruct (negb ((0 <=? se) && (se <? 60))%Z) eqn:Rse; [discriminate|].
  pose proof (fracSecond_range v6) as Hns.
  destruct (fracSecond v6) as [ns v7]. cbn [fst] in Hns.
  destruct v7; [|discriminate].
  destruct (negb ((1 <=? d) && (d <=? daysIn mo y))%Z) eqn:Rd; [discriminate|].
  intros H. injection H as <-. cbn.
  apply getyear_range in Ey. apply negb_range_false in Rmo, Rd.
  apply negb_range_lt_false in Rh, Rmi, Rse.
  repeat split; lia.
Qed.

Lemma getyear_pad4 (y : Z) (r : string) :
  (0 <= y <= 9999)%Z -> getyear (pad4 y ++ r) = Some (y, r).
Proof.
  intros Hy. unfold pad4. rewrite !str_app_cons, str_app_nil.
  destruct (digitChar_ok (y / 1000)%Z) as [A1 B1]; [zlia|].
  destruct (digitChar_ok (y / 100 mod 10)%Z) as [A2 B2]; [zlia|].
  destruct (digitChar_ok (y / 10 mod 10)%Z) as [A3 B3]; [zlia|].
  destruct (digitChar_ok (y mod 10)%Z) as [A4 B4]; [zlia|].
  unfold getyear. rewrite A1. unfold digitsVal. cbn [digitsAcc].
  rewrite A1, A2, A3, A4, B1, B2, B3, B4. f_equal. f_equal. zlia.
Qed.

Lemma getnum_pad2 (n : Z) (b : bool) (r : string) :
  (0 <= n <= 99)%Z -> getnum (pad2 n ++ r) b = Some (n, r).
Proof.
  intros Hn. unfold pad2. rewrite !str_app_cons, str_app_nil.
  destruct (digitChar_ok (n / 10)%Z) as [A1 B1]; [zlia|].
  destruct (digitChar_ok (n mod 10)%Z) as [A2 B2]; [zlia|].
  unfold getnum. rewrite A1, A2, B1, B2. cbn [negb]. f_equal. f_equal. zlia.
Qed.

Lemma range_true (a b c : Z) : (a <= b <= c)%Z -> negb ((a <=? b) && (b <=? c))%Z = false.
Proof. intros H. apply negb_false_iff, andb_true_iff. split; apply Z.leb_le; lia. Qed.

Lemma range_lt_true (a b c : Z) : (a <= b < c)%Z -> negb ((a <=? b) && (b <? c))%Z = false.
Proof.
  intros H. apply negb_false_iff, andb_true_iff. split; [apply Z.leb_le|apply Z.ltb_lt]; lia.
Qed.

Lemma digitChar_digitVal (c : ascii) : isDigit c = true -> digitChar (digitVal c) = c.
Proof.
  unfold isDigit, digitChar, digitVal. intros H.
  apply andb_true_iff in H as [H1 H2]. apply Nat.leb_le in H1, H2.
  replace (48 + Z.to_nat (Z.of_nat (nat_of_ascii c) - 48))%nat with (nat_of_ascii c) by lia.
  apply ascii_nat_embedding.
Qed.

Lemma pad2_digits (c0 c1 : ascii) : isDigit c0 = true -> isDigit c1 = true ->
  pad2 (digitVal c0 * 10 + digitVal c1) = String c0 (String c1 EmptyString).
Proof.
  intros E0 E1. pose proof (digitVal_range _ E0). pose proof (digitVal_range _ E1).
  unfold pad2.
  replace ((digitVal c0 * 10 + digitVal c1) / 10)%Z with (digitVal c0) by zlia.
  replace ((digitVal c0 * 10 + digitVal c1) mod 10)%Z with (digitVal c1) by zlia.
  now rewrite !digitChar_digitVal.
Qed.

(** What [getyear] reads is the zero-padded text of the year. *)
Lemma getyear_inv (s r : string) (y : Z) : getyear s = Some (y, r) -> s = pad4 y ++ r.
Proof.
  unfold getyear.
  destruct s as [|c0 [|c1 [|c2 [|c3 s]]]]; try discriminate.
  destruct (isDigit c0) eqn:E0; [|discriminate].
  unfold digitsVal, digitsAcc. rewrite E0.
  destruct (isDigit c1) eqn:E1; [|discriminate].
  destruct (isDigit c2) eqn:E2; [|discriminate].
  destruct (isDigit c3) eqn:E3; [|discriminate].
  intros H. injection H as <- <-.
  pose proof (digitVal_range _ E0). pose proof (digitVal_range _ E1).
  pose proof (digitVal_range _ E2). pose proof (digitVal_range _ E3).
  unfold pad4. rewrite !str_app_cons, str_app_nil.
  set (y := ((((0 * 10 + digitVal c0) * 10 + digitVal c1) * 10 + digitVal c2) * 10
             + digitVal c3)%Z).
  replace (y / 1000)%Z with (digitVal c0) by (unfold y; zlia).
  replace (y / 100 mod 10)%Z with (digitVal c1) by (unfold y; zlia).
  replace (y / 10 mod 10)%Z with (digitVal c2) by (unfold y; zlia).
  replace (y mod 10)%Z with (digitVal c3) by (unfold y; zlia).
  now rewrite !digitChar_digitVal.
Qed.

(** What [getnum] reads is the zero-padded text of the number when it
    took two digits: always with [fixed], and without it when a digit
    follows. *)
Lemma getnum_inv (s r : string) (b : bool) (n : Z) :
  getnum s b = Some (n, r) ->
  b = true \/ (exists c r', r = String c r' /\ isDigit c = true) ->
  s = pad2 n ++ r.
Proof.
  unfold getnum. destruct s as [|c0 [|c1 s]]; try discriminate.
  - destruct (isDigit c0); [|discriminate]. destruct b; [discriminate|].
    intros H. injection H as <- <-. intros [Hb|(c & r' & Hr & _)]; discriminate.
  - destruct (isDigit c0) eqn:E0; [|discriminate].
    destruct (isDigit c1) eqn:E1.
    + intros H. injection H as <- <-. intros _.
      rewrite pad2_digits by assumption. reflexivity.
    + destruct b; [discriminate|]. intros H. injection H as <- <-.
      intros [Hb|(c & r' & Hr & Hc)]; [discriminate|].
      injection Hr as <- _. congruence.
Qed.

Lemma digitsAcc_allDigits (s : string) (a : Z) :
  allDigits s = true -> exists n, digitsAcc a s = Some n.
Proof.
  revert a. induction s as [|c s IH]; intros a H; cbn [digitsAcc]; [eauto|].
  cbn [allDigits] in H. apply andb_true_iff in H as [Hc Hs]. rewrite Hc. auto.
Qed.

Lemma allDigits_substring (m : nat) (s : string) :
  allDigits s = true -> allDigits (substring 0 m s) = true.
Proof.
  revert s. induction m as [|m IH]; intros s H; destruct s as [|c s]; try reflexivity.
  cbn [substring allDigits] in *. apply andb_true_iff in H as [Hc Hs].
  rewrite Hc. cbn [andb]. auto.
Qed.

Lemma digitRun_allDigits (r : string) : allDigits r = true -> digitRun r = String.length r.
Proof.
  induction r as [|c r IH]; [reflexivity|]. cbn [allDigits digitRun String.length].
  intros H. apply andb_true_iff in H as [Hc Hr]. rewrite Hc. auto.
Qed.

Lemma skipStr_length (r : string) : skipStr (String.length r) r = EmptyString.
Proof. induction r as [|c r IH]; [reflexivity|]. exact IH. Qed.

(** A fractional second of the accepted shape is consumed entirely. *)
Lemma fracShape_snd (f : string) : fracShape f = true -> snd (fracSecond f) = EmptyString.
Proof.
  destruct f as [|c ds]; [reflexivity|]. cbn [fracShape]. intros H.
  apply andb_true_iff in H as [H Hd]. apply andb_true_iff in H as [Hc Hne].
  destruct ds as [|d r]; [discriminate|]. clear Hne.
  pose proof Hd as Hd'. cbn [allDigits] in Hd'. apply andb_true_iff in Hd' as [Hdd Hr].
  unfold fracSecond. rewrite Hc, Hdd. cbn [andb].
  replace (Nat.min (S (digitRun r)) 9) with (S (Nat.min (digitRun r) 8)) by lia.
  destruct (digitsAcc_allDigits (substring 0 (S (Nat.min (digitRun r) 8)) (String d r)) 0)
    as [n Hn]; [now apply allDigits_substring|].
  cbn [substring digitsVal] in *. rewrite Hn. cbn [snd skipStr].
  rewrite digitRun_allDigits by exact Hr. apply skipStr_length.
Qed.

(** The texts [parseTime14] accepts, exactly: the zero-padded fields of
    the result followed by a fractional second of the accepted shape,
    which gives the nanoseconds. *)
Lemma parseTime14_inv (v : string) (tz : Location) (g : GoTime) :
  parseTime14 v tz = Ok g ->
  exists f, v = pad4 (year g) ++ pad2 (month g) ++ pad2 (day g) ++ pad2 (hour g)
                ++ pad2 (minute g) ++ pad2 (second g) ++ f /\
            fracShape f = true /\ nsec g = fst (fracSecond f).
Proof.
  unfold parseTime14.
  destruct (getyear v) as [[y v1]|] eqn:Ey; [|discriminate].
  destruct (getnum v1 true) as [[mo v2]|] eqn:Emo; [|discriminate].
  destruct (negb _); [discriminate|].
  destruct (getnum v2 true) as [[d v3]|] eqn:Ed; [|discriminate].
  destruct (getnum v3 false) as [[h v4]|] eqn:Eh; [|discriminate].
  destruct (negb _); [discriminate|].
  destruct (getnum v4 true) as [[mi v5]|] eqn:Emi; [|discriminate].
  destruct (negb _); [discriminate|].
  destruct (getnum v5 true) as [[se v6]|] eqn:Ese; [|discriminate].
  destruct (negb _); [discriminate|].
  destruct (fracSecond v6) as [ns v7] eqn:Ef.
  destruct v7 as [|x v7]; [|discriminate].
  destruct (negb _); [discriminate|].
  intros H. injection H as <-. cbn [year month day hour minute second nsec].
  exists v6. split; [|split; [eapply fracSecond_empty; exact Ef|now rewrite Ef]].
  pose proof (getnum_fixed_head _ _ _ Emi) as (c4 & s4 & Hv4 & Hc4).
  apply getyear_inv in Ey as ->.
  apply getnum_inv in Emo as ->; [|now left].
  apply getnum_inv in Ed as ->; [|now left].
  apply getnum_inv in Eh as ->; [|right; eauto].
  apply getnum_inv in Emi as ->; [|now left].
  apply getnum_inv in Ese as ->; [|now left].
  reflexivity.
Qed.

(** Conversely, every such text is accepted, with the fraction as the
    nanoseconds. *)
Lemma parseTime14_pad (y mo d h mi se : Z) (f : string) (tz : Location) :
  (0 <= y <= 9999)%Z -> (1 <= mo <= 12)%Z -> (1 <= d <= daysIn mo y)%Z ->
  (0 <= h < 24)%Z -> (0 <= mi < 60)%Z -> (0 <= se < 60)%Z -> fracShape f = true ->
  parseTime14 (pad4 y ++ pad2 mo ++ pad2 d ++ pad2 h ++ pad2 mi ++ pad2 se ++ f) tz
  = Ok (mkGoTime y mo d h mi se (fst (fracSecond f)) tz).
Proof.
  intros Hy Hmo Hd Hh Hmi Hse Hf.
  assert (Hdm : (daysIn mo y <= 31)%Z).
  { assert (Hc : (mo = 1 \/ mo = 2 \/ mo = 3 \/ mo = 4 \/ mo = 5 \/ mo = 6 \/ mo = 7 \/
                  mo = 8 \/ mo = 9 \/ mo = 10 \/ mo = 11 \/ mo = 12)%Z) by lia.
    unfold daysIn. repeat destruct Hc as [->|Hc]; try (subst mo); try lia;
      destruct (isLeap y); lia. }
  unfold parseTime14.
  rewrite getyear_pad4 by exact Hy. rewrite getnum_pad2 by lia. rewrite range_true by exact Hmo.
  rewrite getnum_pad2 by lia. rewrite getnum_pad2 by lia. rewrite range_lt_true by exact Hh.
  rewrite getnum_pad2 by lia. rewrite range_lt_true by exact Hmi.
  rewrite getnum_pad2 by lia. rewrite range_lt_true by exact Hse.
  pose proof (fracShape_snd f Hf) as Hs.
  destruct (fracSecond f) as [ns v7]. cbn [snd fst] in *. subst v7.
  rewrite range_true by exact Hd. reflexivity.
Qed.

(** C4 (counterexample): a request processing time with a fractional
    second after the fourteen digits does not match the layout, yet the
    cook succeeds and keeps the fraction as nanoseconds. *)
Lemma requestProcessingTime_fraction_accepted :
  cookNextTripsForStop ParseFloatExample LoadLocationExample
    (rawNextTripsForStop.mk "3017" "RIDEAU" ""
       [rawRouteDirection.mk "95" "Barrhaven" "Southbound" "" "20180831114042.5" []]) =
  Ok (NextTripsForStop.mk "3017" "RIDEAU" ""
       [RouteDirection.mk "95" "Barrhaven" "Southbound" ""
          (mkGoTime 2018 8 31 11 40 42 500000000 (mkLocation "America/Toronto")) []]).
Proof. vm_compute. reflexivity. Qed.

(** C4 (amended): with [tz] the zone [time.LoadLocation("America/Toronto")]
    loads, ["20180831114042"] is 2018-08-31 11:40:42 in [tz]; a cooked
    route direction carries the time its wire text parses to in [tz];
    a text the parser rejects fails the whole cook.  The texts the parser
    accepts are exactly fourteen digits whose fields (year, month, day,
    hour, minute, second) are in range, followed by nothing or by ['.'] or
    [','] and one or more digits: such a text parses to those fields,
    given to [time.Date] with the fraction as the nanoseconds, and any
    other text is rejected. *)
Theorem requestProcessingTime_parse (ParseFloat : string -> result float)
  (LoadLocation : string -> result Location) (tz : Location)
  (Htz : LoadLocation "America/Toronto" = Ok tz) :
  parseTime14 "20180831114042" tz = Ok (mkGoTime 2018 8 31 11 40 42 0 tz) /\
  (forall (d : rawNextTripsForStop.t) (c : NextTripsForStop.t),
     cookNextTripsForStop ParseFloat LoadLocation d = Ok c ->
     Forall2 (fun rd crd => parseTime14 (rawRouteDirection.RequestProcessingTime rd) tz
                             = Ok (RouteDirection.RequestProcessingTime crd))
       (rawNextTripsForStop.RouteDirection d) (NextTripsForStop.RouteDirections c)) /\
  (forall (d : rawNextTripsForStop.t) (rd : rawRouteDirection.t),
     In rd (rawNextTripsForStop.RouteDirection d) ->
     isErr (parseTime14 (rawRouteDirection.RequestProcessingTime rd) tz) ->
     isErr (cookNextTripsForStop ParseFloat LoadLocation d)) /\
  (forall (v : string) (g : GoTime), parseTime14 v tz = Ok g ->
     exists p f, v = p ++ f /\ String.length p = 14%nat /\ allDigits p = true /\
                 fracShape f = true) /\
  (forall (v : string) (g : GoTime), parseTime14 v tz = Ok g ->
     exists f, v = pad4 (year g) ++ pad2 (month g) ++ pad2 (day g) ++ pad2 (hour g)
                   ++ pad2 (minute g) ++ pad2 (second g) ++ f /\
               fracShape f = true /\ nsec g = fst (fracSecond f) /\
               (0 <= year g <= 9999)%Z /\ (1 <= month g <= 12)%Z /\
               (1 <= day g <= daysIn (month g) (year g))%Z /\ (0 <= hour g < 24)%Z /\
               (0 <= minute g < 60)%Z /\ (0 <= second g < 60)%Z /\ loc g = tz) /\
  (forall (y mo d h mi se : Z) (f : string),
     (0 <= y <= 9999)%Z -> (1 <= mo <= 12)%Z -> (1 <= d <= daysIn mo y)%Z ->
     (0 <= h < 24)%Z -> (0 <= mi < 60)%Z -> (0 <= se < 60)%Z -> fracShape f = true ->
     parseTime14 (pad4 y ++ pad2 mo ++ pad2 d ++ pad2 h ++ pad2 mi ++ pad2 se ++ f) tz
     = Ok (mkGoTime y mo d h mi se (fst (fracSecond f)) tz)).
Proof.
  split; [reflexivity|]. split; [|split; [|split; [|split]]].
  - intros d c H. apply cookNextTripsForStop_ok in H as (_ & _ & _ & H).
    eapply Forall2_impl; [exact H|]. intros rd crd Hrd.
    apply cookRouteDirection_ok in Hrd as (tz' & Htz' & _ & _ & _ & _ & Hp & _).
    rewrite Htz in Htz'. injection Htz' as <-. exact Hp.
  - intros d rd Hin He. eapply cookNextTripsForStop_rd_err; [exact Hin|].
    unfold cookRouteDirection.
    apply rbind_err_k; intros ?. rewrite Htz. simpl. apply rbind_err. exact He.
  - intros v g Hv. exact (parseTime14_shape v tz g Hv).
  - intros v g Hv. pose proof (parseTime14_ranges v tz g Hv) as R.
    apply parseTime14_inv in Hv as (f & Hv & Hf & Hn). exists f. tauto.
  - intros y mo d h mi se f. apply parseTime14_pad.
Qed.

Lemma requestProcessingTime_parse_witness :
  LoadLocationExample "America/Toronto" = Ok (mkLocation "America/Toronto") /\
  parseTime14 "20180831114042" (mkLocation "America/Toronto") =
    Ok (mkGoTime 2018 8 31 11 40 42 0 (mkLocation "America/Toronto")).
Proof.
  split; [reflexivity|].
  exact (proj1 (requestProcessingTime_parse ParseFloatExample LoadLocationExample
                  (mkLocation "America/Toronto") eq_refl)).
Defined.








Lemma convertTrips_copies (ParseFloat : string -> result float)
  (ts : list rawXMLTrip.t) (cts : list Trip.t) :
  convertTrips ParseFloat ts = Ok cts ->
  Forall2 (fun t ct => convert ParseFloat t = (ct, None) /\
             Trip.TripDestination ct = rawXMLTrip.TripDestination t /\
             Trip.TripStartTime ct = rawXMLTrip.TripStartTime t /\
             Trip.BusType ct = rawXMLTrip.BusType t) ts cts.
Proof.
  intros H. apply convertTrips_ok in H. eapply Forall2_impl; [exact H|].
  intros t ct Hc. pose proof (convert_ok ParseFloat t ct Hc) as (? & ? & _ & _ & _ & ? & _).
  auto.
Qed.

Lemma Forall2_map_r {A B} (R : A -> B -> Prop) (f : A -> B) (l : list A) :
  (forall x, R x (f x)) -> Forall2 R l (map f l).
Proof. intros Hf. induction l; simpl; constructor; auto. Qed.

(** C9: a successful cook keeps every repeated sequence (routes, route
    directions, trips) element for element and in wire order, and copies
    the text fields verbatim; the [GetRouteSummaryForStop] result for stop
    7659 "BANK / FIFTH" with error text "TestErrorStringHere" and routes
    6 and 7 cooks to exactly those fields and routes. *)
Theorem cooks_preserve_order_and_text (ParseFloat : string -> result float)
  (LoadLocation : string -> result Location) :
  (forall (d : rawRouteSummaryForStop.t) (c : RouteSummaryForStop.t),
     cookRouteSummaryForStop d = Ok c ->
     RouteSummaryForStop.StopNo c = rawRouteSummaryForStop.StopNo d /\
     RouteSummaryForStop.StopDescription c = rawRouteSummaryForStop.StopDescription d /\
     Forall2 (fun r cr =>
                Route.RouteNo cr = rawRoute.RouteNo r /\
                Route.DirectionID cr = rawRoute.DirectionID r /\
                Route.Direction cr = rawRoute.Direction r /\
                Route.RouteHeading cr = rawRoute.RouteHeading r)
       (rawRouteSummaryForStop.Routes d) (RouteSummaryForStop.Routes c)) /\
  (forall (d : rawNextTripsForStop.t) (c : NextTripsForStop.t),
     cookNextTripsForStop ParseFloat LoadLocation d = Ok c ->
     NextTripsForStop.StopNo c = rawNextTripsForStop.StopNo d /\
     NextTripsForStop.StopLabel c = rawNextTripsForStop.StopLabel d /\
     Forall2 (fun rd crd =>
                RouteDirection.RouteNo crd = rawRouteDirection.RouteNo rd /\
                RouteDirection.RouteLabel crd = rawRouteDirection.RouteLabel rd /\
                RouteDirection.Direction crd = rawRouteDirection.Direction rd /\
                Forall2 (fun t ct => convert ParseFloat t = (ct, None) /\
                           Trip.TripDestination ct = rawXMLTrip.TripDestination t /\
                           Trip.TripStartTime ct = rawXMLTrip.TripStartTime t /\
                           Trip.BusType ct = rawXMLTrip.BusType t)
                  (rawRouteDirection.Trips rd) (RouteDirection.Trips crd))
       (rawNextTripsForStop.RouteDirection d) (NextTripsForStop.RouteDirections c)) /\
  (forall (d : rawNextTripsForStopAllRoutes.t) (c : NextTripsForStopAllRoutes.t),
     cookNextTripsForStopAllRoutes ParseFloat d = Ok c ->
     NextTripsForStopAllRoutes.StopNo c = rawNextTripsForStopAllRoutes.StopNo d /\
     NextTripsForStopAllRoutes.StopDescription c
       = rawNextTripsForStopAllRoutes.StopDescription d /\
     Forall2 (fun rt crt =>
                RouteWithTrips.RouteNo crt = rawRouteWithTrips.RouteNo rt /\
                RouteWithTrips.DirectionID crt = rawRouteWithTrips.DirectionID rt /\
                RouteWithTrips.Direction crt = rawRouteWithTrips.Direction rt /\
                RouteWithTrips.RouteHeading crt = rawRouteWithTrips.RouteHeading rt /\
                Forall2 (fun t ct => convert ParseFloat t = (ct, None) /\
                           Trip.TripDestination ct = rawXMLTrip.TripDestination t /\
                           Trip.TripStartTime ct = rawXMLTrip.TripStartTime t /\
                           Trip.BusType ct = rawXMLTrip.BusType t)
                  (rawRouteWithTrips.Trips rt) (RouteWithTrips.Trips crt))
       (rawNextTripsForStopAllRoutes.Routes d) (NextTripsForStopAllRoutes.Routes c)) /\
  cookRouteSummaryForStop
    (rawRouteSummaryForStop.mk "7659" "BANK / FIFTH" "TestErrorStringHere"
       [rawRoute.mk "6" "1" "Northbound" "Rockcliffe";
        rawRoute.mk "7" "1" "Eastbound" "St-Laurent"]) =
  Ok (RouteSummaryForStop.mk "7659" "BANK / FIFTH" "TestErrorStringHere"
       [Route.mk "6" "1" "Northbound" "Rockcliffe";
        Route.mk "7" "1" "Eastbound" "St-Laurent"]).
Proof.
  split; [|split; [|split]].
  - intros d c H. unfold cookRouteSummaryForStop in H.
    destruct (checkErrorCodeR _) as [et|]; simpl in H; [|discriminate].
    injection H as <-. simpl. split; [reflexivity|]. split; [reflexivity|].
    apply Forall2_map_r. intros r. simpl. auto.
  - intros d c H. apply cookNextTripsForStop_ok in H as (? & ? & _ & Hrds).
    split; [assumption|]. split; [assumption|].
    eapply Forall2_impl; [exact Hrds|]. intros rd crd Hc.
    apply cookRouteDirection_ok in Hc as (? & _ & ? & ? & ? & _ & _ & Ht).
    auto using convertTrips_copies.
  - intros d c H. apply cookNextTripsForStopAllRoutes_ok in H as (? & ? & _ & Hrts).
    split; [assumption|]. split; [assumption|].
    eapply Forall2_impl; [exact Hrts|]. intros rt crt Hc.
    apply cookRouteWithTrips_ok in Hc as (? & ? & ? & ? & Ht).
    auto 6 using convertTrips_copies.
  - vm_compute. reflexivity.
Qed.

(** ** Query options and the outcome of the GTFS calls *)

(** C6 (counterexample): the [OrderBy] of [part_000]: [OrderBy("up")] sets [orderBy=up] without
    error, and [GetGTFSAgency] with it goes on to request the table. *)
Lemma orderBy_accepts_up :
  OrderBy "up" ∅ = (VSet "orderBy" "up" ∅, None) /\
  match GetGTFSAgency decodeAgencyExample (mkConnection "id" "key") [OrderBy "up"] with
  | Fetch url _ =>
      url = "https://api.octranspo1.com/v1.2/Gtfs?apiKey=key&appID=id&format=json&orderBy=up&table=agency"
  | Done _ => False
  end.
Proof. split; [reflexivity|]. vm_compute. reflexivity. Qed.

(** C6 (amended): the package has two [OrderBy] options.  The one of
    [part_000] never fails and sets [orderBy] to its argument, whatever
    it is; there the asc/desc check is in [Direction(s)], which fails with
    a configuration error before any request for every other [s] and sets
    [direction] to [s] for ["asc"] and ["desc"].  The [OrderBy] of
    [gtfs.go] fails with a configuration error for every argument other
    than ["asc"] and ["desc"], so that its [GTFSAgency] returns the error
    before any request, and sets [orderBy] to ["asc"] or ["desc"]. *)
Theorem orderBy_direction_options :
  (forall (s : string) (v : Values), OrderBy s v = (VSet "orderBy" s v, None)) /\
  (forall (s : string) (v : Values), s <> "asc" -> s <> "desc" ->
     Direction s v = (v, Some (ConfigError "direction only accepts asc or desc as parameters"))) /\
  (forall (s : string) (v : Values), s = "asc" \/ s = "desc" ->
     Direction s v = (VSet "direction" s v, None)) /\
  (forall (decode : string -> GTFSAgency * option error) (c : Connection)
          (s : string) (opts : list QueryOption),
     s <> "asc" -> s <> "desc" ->
     GetGTFSAgency decode c (Direction s :: opts)
       = Done (None, Some (ConfigError "direction only accepts asc or desc as parameters"))) /\
  (forall (s : string) (v : Values), s <> "asc" -> s <> "desc" ->
     gtfs_go.OrderBy s v
     = (v, Some (ConfigError "OrderBy only accepts asc or desc as parameters."))) /\
  (forall (s : string) (v : Values), s = "asc" \/ s = "desc" ->
     gtfs_go.OrderBy s v = (VSet "orderBy" s v, None)) /\
  (forall (decode : string -> gtfs_go.GTFSAgencyData * option error) (c : Connection)
          (s : string) (opts : list QueryOption),
     s <> "asc" -> s <> "desc" ->
     gtfs_go.GTFSAgency decode c (gtfs_go.OrderBy s :: opts)
     = Done (None, Some (ConfigError "OrderBy only accepts asc or desc as parameters."))).
Proof.
  assert (Ho : forall (s : string) (v : Values), s <> "asc" -> s <> "desc" ->
     gtfs_go.OrderBy s v
     = (v, Some (ConfigError "OrderBy only accepts asc or desc as parameters."))).
  { intros s v H1 H2. unfold gtfs_go.OrderBy.
    apply String.eqb_neq in H1, H2. rewrite H1, H2. reflexivity. }
  assert (Hd : forall (s : string) (v : Values), s <> "asc" -> s <> "desc" ->
     Direction s v = (v, Some (ConfigError "direction only accepts asc or desc as parameters"))).
  { intros s v H1 H2. unfold Direction.
    apply String.eqb_neq in H1, H2. rewrite H1, H2. reflexivity. }
  split; [reflexivity|]. split; [exact Hd|]. split; [|split].
  - intros s v [-> | ->]; reflexivity.
  - intros decode c s opts H1 H2. unfold GetGTFSAgency, setupGTFSURL, setupGTFSValues.
    simpl. rewrite (Hd s _ H1 H2). reflexivity.
  - split; [exact Ho|]. split.
    + intros s v [-> | ->]; reflexivity.
    + intros decode c s opts H1 H2. unfold gtfs_go.GTFSAgency.
      cbn [applyOptions]. rewrite (Ho s _ H1 H2). reflexivity.
Qed.

(** C7: once the response body is read, [GetGTFSAgency] answers the table
    [json.Decode] filled together with the error [Decode] returned. *)
Theorem gtfs_agency_returns_data_with_error
  (decode : string -> GTFSAgency * option error) (c : Connection)
  (opts : list QueryOption) (u : URL) (body : string) (d : GTFSAgency) (e : error)
  (Hu : setupGTFSURL c (opts ++ [setTable "agency"]) = Ok u)
  (Hd : decode body = (d, Some e)) :
  match GetGTFSAgency decode c opts with
  | Fetch url k => url = URLString u /\ k (Ok body) = Done (Some d, Some e)
  | Done _ => False
  end.
Proof.
  unfold GetGTFSAgency. rewrite Hu. unfold fetchAndDecode. simpl.
  rewrite Hd. split; reflexivity.
Qed.

Lemma gtfs_agency_returns_data_with_error_witness :
  setupGTFSURL (mkConnection "id" "key") ([] ++ [setTable "agency"])
    = Ok (mkURL "https://api.octranspo1.com/v1.2/Gtfs" "apiKey=key&appID=id&format=json&table=agency") /\
  decodeAgencyExample agencyTypeErrorBody =
    (mkGTFSAgency emptyGTFSQuery [mkAgencyRow "1" "" "" "" "" ""],
     Some (DecodeError "json: cannot unmarshal number into Go struct field .Gtfs.agency_name of type string")) /\
  match GetGTFSAgency decodeAgencyExample (mkConnection "id" "key") [] with
  | Fetch url k =>
      url = "https://api.octranspo1.com/v1.2/Gtfs?apiKey=key&appID=id&format=json&table=agency" /\
      k (Ok agencyTypeErrorBody) =
        Done (Some (mkGTFSAgency emptyGTFSQuery [mkAgencyRow "1" "" "" "" "" ""]),
              Some (DecodeError "json: cannot unmarshal number into Go struct field .Gtfs.agency_name of type string"))
  | Done _ => False
  end.
Proof.
  split; [vm_compute; reflexivity|]. split; [vm_compute; reflexivity|].
  exact (gtfs_agency_returns_data_with_error decodeAgencyExample (mkConnection "id" "key") []
           (mkURL "https://api.octranspo1.com/v1.2/Gtfs" "apiKey=key&appID=id&format=json&table=agency")
           agencyTypeErrorBody _ _ (ltac:(vm_compute; reflexivity)) (ltac:(vm_compute; reflexivity))).
Defined.

(** ** The selector check of the GTFS calls *)

Lemma QueryUnescape_escapeByte (c : ascii) (r : string) :
  QueryUnescape (escapeByte c ++ r) = let? rest := QueryUnescape r in Ok (String c rest).
Proof.
  destruct c as [[] [] [] [] [] [] [] []]; reflexivity.
Qed.

Lemma escapeByte_special (c : ascii) :
  containsByte "&" (escapeByte c) = false /\ containsByte "=" (escapeByte c) = false /\
  containsByte ";" (escapeByte c) = false.
Proof.
  destruct c as [[] [] [] [] [] [] [] []]; repeat split.
Qed.

Lemma QueryUnescape_QueryEscape (s : string) : QueryUnescape (QueryEscape s) = Ok s.
Proof.
  induction s as [|c s IH]; [reflexivity|].
  simpl QueryEscape. rewrite QueryUnescape_escapeByte, IH. reflexivity.
Qed.

Lemma containsByte_app (c : ascii) (a b : string) :
  containsByte c (a ++ b) = containsByte c a || containsByte c b.
Proof.
  induction a as [|x a IH]; [reflexivity|]. rewrite str_app_cons. simpl.
  rewrite IH. apply orb_assoc.
Qed.

Lemma QueryEscape_special (s : string) :
  containsByte "&" (QueryEscape s) = false /\ containsByte "=" (QueryEscape s) = false /\
  containsByte ";" (QueryEscape s) = false.
Proof.
  induction s as [|c s (IH1 & IH2 & IH3)]; [repeat split|].
  simpl QueryEscape. rewrite !containsByte_app.
  destruct (escapeByte_special c) as (H1 & H2 & H3).
  rewrite H1, H2, H3, IH1, IH2, IH3. repeat split.
Qed.

Lemma cutOn_app (c : ascii) (a b : string) :
  containsByte c a = false -> cutOn c (a ++ String c b) = (a, b, true).
Proof.
  induction a as [|x a IH]; intros H; simpl.
  - rewrite Ascii.eqb_refl. reflexivity.
  - simpl in H. apply orb_false_iff in H as [Hx Ha].
    rewrite Hx, (IH Ha). reflexivity.
Qed.

Lemma splitOn_noc (c : ascii) (a : string) :
  containsByte c a = false -> splitOn c a = [a].
Proof.
  induction a as [|x a IH]; intros H; [reflexivity|]. simpl in *.
  apply orb_false_iff in H as [Hx Ha]. rewrite Hx, (IH Ha). reflexivity.
Qed.

Lemma splitOn_app (c : ascii) (a b : string) :
  containsByte c a = false -> splitOn c (a ++ String c b) = a :: splitOn c b.
Proof.
  induction a as [|x a IH]; intros H; simpl.
  - rewrite Ascii.eqb_refl. reflexivity.
  - simpl in H. apply orb_false_iff in H as [Hx Ha].
    rewrite Hx, (IH Ha). reflexivity.
Qed.

Lemma splitOn_concat (c : ascii) (l : list string) :
  l <> [] -> Forall (fun x => containsByte c x = false) l ->
  splitOn c (String.concat (String c EmptyString) l) = l.
Proof.
  induction l as [|x l IH]; intros Hne Hl; [congruence|].
  inversion Hl as [|? ? Hx Hl']; subst.
  destruct l as [|y l].
  - simpl. now apply splitOn_noc.
  - change (String.concat (String c EmptyString) (x :: y :: l))
      with (x ++ String c EmptyString ++ String.concat (String c EmptyString) (y :: l)).
    rewrite str_app_cons, str_app_nil, splitOn_app by exact Hx.
    rewrite IH; [reflexivity|discriminate|exact Hl'].
Qed.


Lemma parseQueryPiece_encodePair (m : Values) (k v : string) :
  parseQueryPiece (m, None) (encodePair k v) = (VAdd k v m, None).
Proof.
  destruct (QueryEscape_special k) as (_ & Hk & Hk3).
  destruct (QueryEscape_special v) as (_ & _ & Hv3).
  unfold parseQueryPiece, encodePair.
  rewrite !containsByte_app, Hk3, Hv3. simpl.
  replace (String.eqb (QueryEscape k ++ "=" ++ QueryEscape v) "") with false.
  2:{ symmetry. apply String.eqb_neq. intros H.
      apply (f_equal String.length) in H. rewrite !str_length_app in H. simpl in H. lia. }
  change ("=" ++ QueryEscape v) with (String "=" (QueryEscape v)).
  rewrite (cutOn_app _ _ _ Hk), !QueryUnescape_QueryEscape. reflexivity.
Qed.

Lemma parseQuery_pieces (ps : list (string * string)) (m : Values) :
  foldl parseQueryPiece (m, None) (map (fun p => encodePair p.1 p.2) ps)
  = (foldl addPair m ps, None).
Proof.
  revert m. induction ps as [|[k v] ps IH]; intros m; [reflexivity|].
  cbn [map foldl]. rewrite parseQueryPiece_encodePair. apply IH.
Qed.

Lemma ParseQuery_concat (ps : list (string * string)) :
  ParseQuery (String.concat "&" (map (fun p => encodePair p.1 p.2) ps))
  = (foldl addPair ∅ ps, None).
Proof.
  unfold ParseQuery. destruct ps as [|p ps]; [reflexivity|].
  rewrite splitOn_concat.
  - apply parseQuery_pieces.
  - discriminate.
  - apply Forall_forall. intros x Hx. apply list_elem_of_In, in_map_iff in Hx as ([k v] & <- & _).
    cbn [fst snd]. unfold encodePair. rewrite !containsByte_app.
    destruct (QueryEscape_special k) as (-> & _). destruct (QueryEscape_special v) as (-> & _).
    reflexivity.
Qed.



Lemma Encode_pairs (m : Values) :
  Encode m = String.concat "&" (map (fun p => encodePair p.1 p.2) (encodedPairs m)).
Proof.
  unfold Encode, encodedPairs. f_equal.
  induction (sortedKeys m) as [|k ks IH]; [reflexivity|].
  simpl. rewrite List.map_app, IH, List.map_map. reflexivity.
Qed.

Lemma foldl_addPair_lookup (ps : list (string * string)) (acc : Values) (k : string) :
  foldl addPair acc ps !! k =
  match valuesFor k ps with
  | [] => acc !! k
  | vs => Some (default [] (acc !! k) ++ vs)%list
  end.
Proof.
  revert acc. induction ps as [|[k' v] ps IH]; intros acc; [reflexivity|].
  cbn [foldl]. rewrite IH. unfold valuesFor. cbn [List.filter fst snd].
  unfold addPair, VAdd. cbn [fst snd].
  destruct (String.eqb_spec k' k) as [->|Hne].
  - rewrite lookup_insert_eq. cbn [map].
    destruct (map snd _); simpl; [reflexivity|].
    rewrite <- app_assoc. reflexivity.
  - rewrite lookup_insert_ne by congruence. reflexivity.
Qed.

Lemma valuesFor_app (k : string) (a b : list (string * string)) :
  valuesFor k (a ++ b)%list = (valuesFor k a ++ valuesFor k b)%list.
Proof. unfold valuesFor. rewrite List.filter_app, List.map_app. reflexivity. Qed.

Lemma valuesFor_pair (k k' : string) (l : list string) :
  valuesFor k (map (pair k') l) = if String.eqb k' k then l else [].
Proof.
  unfold valuesFor. induction l as [|v l IH]; simpl.
  - destruct (String.eqb k' k); reflexivity.
  - destruct (String.eqb k' k); simpl; rewrite IH; reflexivity.
Qed.

Lemma valuesFor_keys (m : Values) (k : string) (keys : list string) :
  NoDup keys ->
  valuesFor k (flat_map (fun k' => map (pair k') (default [] (m !! k'))) keys) =
  if in_dec string_dec k keys then default [] (m !! k) else [].
Proof.
  induction keys as [|k' ks IH]; intros Hnd; [reflexivity|].
  apply NoDup_cons in Hnd as [Hk' Hnd].
  simpl flat_map. rewrite valuesFor_app, valuesFor_pair, IH by exact Hnd.
  destruct (String.eqb_spec k' k) as [->|Hne].
  - destruct (in_dec string_dec k ks) as [Hin|Hin].
    + exfalso. apply Hk'. now apply list_elem_of_In.
    + destruct (in_dec string_dec k (k :: ks)) as [_|Hn]; [|exfalso; apply Hn; now left].
      apply app_nil_r.
  - rewrite app_nil_l.
    destruct (in_dec string_dec k ks) as [Hin|Hin];
    destruct (in_dec string_dec k (k' :: ks)) as [Hin'|Hin']; try reflexivity.
    + exfalso. apply Hin'. now right.
    + exfalso. destruct Hin' as [Heq|Hin']; [congruence|contradiction].
Qed.

Lemma map_fst_fmap {A B} (l : list (A * B)) : map fst l = l.*1.
Proof. induction l as [|x l IH]; simpl; [reflexivity|]. now rewrite IH. Qed.

Lemma sortedKeys_NoDup (m : Values) : NoDup (sortedKeys m).
Proof.
  unfold sortedKeys. rewrite merge_sort_Permutation, map_fst_fmap.
  apply NoDup_fst_map_to_list.
Qed.

Lemma sortedKeys_In (m : Values) (k : string) :
  In k (sortedKeys m) <-> is_Some (m !! k).
Proof.
  unfold sortedKeys. split.
  - intros H. eapply Permutation_in in H; [|apply merge_sort_Permutation].
    apply in_map_iff in H as ([k' v] & Hk & Hin). simpl in Hk. subst k'.
    exists v. apply elem_of_map_to_list. now apply list_elem_of_In.
  - intros [v Hv]. eapply Permutation_in; [symmetry; apply merge_sort_Permutation|].
    apply in_map_iff. exists (k, v). split; [reflexivity|].
    apply list_elem_of_In. now apply elem_of_map_to_list.
Qed.

Lemma ParseQuery_Encode (m : Values) :
  snd (ParseQuery (Encode m)) = None /\
  forall k, VGet k (fst (ParseQuery (Encode m))) = VGet k m.
Proof.
  rewrite Encode_pairs, ParseQuery_concat. split; [reflexivity|]. intros k.
  cbn [fst]. unfold VGet. rewrite foldl_addPair_lookup. unfold encodedPairs.
  rewrite valuesFor_keys by apply sortedKeys_NoDup.
  destruct (in_dec string_dec k (sortedKeys m)) as [Hin|Hin].
  - apply sortedKeys_In in Hin as [l Hl]. rewrite Hl. simpl.
    rewrite lookup_empty. destruct l; reflexivity.
  - rewrite lookup_empty. destruct (m !! k) eqn:E; [|reflexivity].
    exfalso. apply Hin, sortedKeys_In. rewrite E. eexists; reflexivity.
Qed.

Lemma withSelector_check {T} (table : string) (ok : Values -> bool) (msg : string)
  (decode : string -> T * option error) (c : Connection) (opts : list QueryOption)
  (Hok : forall v1 v2, (forall k, VGet k v1 = VGet k v2) -> ok v1 = ok v2) :
  match setupGTFSValues c (opts ++ [setTable table]) with
  | Err e => withSelector table ok msg decode c opts = Done (None, Some e)
  | Ok v => ok v = false -> withSelector table ok msg decode c opts = Done (None, Some (ConfigError msg))
  end.
Proof.
  unfold withSelector, setupGTFSURL.
  destruct (setupGTFSValues c (opts ++ [setTable table])) as [v|e]; simpl; [|reflexivity].
  intros Hv. destruct (ParseQuery_Encode v) as [Hn Hg].
  destruct (ParseQuery (Encode v)) as [v' err]. simpl in Hn, Hg. subst err.
  rewrite (Hok v' v Hg), Hv. reflexivity.
Qed.

(** C8: when the values the options build (after [setTable]) carry no
    [id] and no [column] selector the endpoint mandates ([stop_id] or
    [stop_code] for stops, [trip_id] or [stop_id] for stop_times,
    [route_id] for trips), [GetGTFSStops], [GetGTFSStopTimes] and
    [GetGTFSTrips] answer a configuration error without any request; an
    option that fails stops the call before any request with its own
    error. *)
Theorem gtfs_selector_required
  (decodeStops : string -> GTFSStops * option error)
  (decodeStopTimes : string -> GTFSStopTimes * option error)
  (decodeTrips : string -> GTFSTrips * option error)
  (c : Connection) (opts : list QueryOption) :
  match setupGTFSValues c (opts ++ [setTable "stops"]) with
  | Err e => GetGTFSStops decodeStops c opts = Done (None, Some e)
  | Ok v =>
      VGet "column" v <> "stop_id" -> VGet "column" v <> "stop_code" -> VGet "id" v = "" ->
      GetGTFSStops decodeStops c opts =
        Done (None, Some (ConfigError "a stop_id, stop_code or id value must be specified"))
  end /\
  match setupGTFSValues c (opts ++ [setTable "stop_times"]) with
  | Err e => GetGTFSStopTimes decodeStopTimes c opts = Done (None, Some e)
  | Ok v =>
      VGet "column" v <> "trip_id" -> VGet "column" v <> "stop_id" -> VGet "id" v = "" ->
      GetGTFSStopTimes decodeStopTimes c opts =
        Done (None, Some (ConfigError "a trip_id, stop_id or id value must be specified"))
  end /\
  match setupGTFSValues c (opts ++ [setTable "trips"]) with
  | Err e => GetGTFSTrips decodeTrips c opts = Done (None, Some e)
  | Ok v =>
      VGet "column" v <> "route_id" -> VGet "id" v = "" ->
      GetGTFSTrips decodeTrips c opts =
        Done (None, Some (ConfigError "a route_id or id value must be specified"))
  end.
Proof.
  split; [|split].
  - pose proof (withSelector_check "stops"
      (fun v => negb (negb (String.eqb (VGet "column" v) "stop_id")
                      && negb (String.eqb (VGet "column" v) "stop_code")
                      && String.eqb (VGet "id" v) ""))
      "a stop_id, stop_code or id value must be specified" decodeStops c opts) as H.
    specialize (H ltac:(intros v1 v2 Hv; cbv beta; rewrite !Hv; reflexivity)).
    unfold GetGTFSStops. destruct (setupGTFSValues _ _) as [v|e]; [|exact H].
    intros H1 H2 H3. apply H. apply String.eqb_neq in H1, H2. rewrite H1, H2, H3. reflexivity.
  - pose proof (withSelector_check "stop_times"
      (fun v => negb (negb (String.eqb (VGet "column" v) "trip_id")
                      && negb (String.eqb (VGet "column" v) "stop_id")
                      && String.eqb (VGet "id" v) ""))
      "a trip_id, stop_id or id value must be specified" decodeStopTimes c opts) as H.
    specialize (H ltac:(intros v1 v2 Hv; cbv beta; rewrite !Hv; reflexivity)).
    unfold GetGTFSStopTimes. destruct (setupGTFSValues _ _) as [v|e]; [|exact H].
    intros H1 H2 H3. apply H. apply String.eqb_neq in H1, H2. rewrite H1, H2, H3. reflexivity.
  - pose proof (withSelector_check "trips"
      (fun v => negb (negb (String.eqb (VGet "column" v) "route_id")
                      && String.eqb (VGet "id" v) ""))
      "a route_id or id value must be specified" decodeTrips c opts) as H.
    specialize (H ltac:(intros v1 v2 Hv; cbv beta; rewrite !Hv; reflexivity)).
    unfold GetGTFSTrips. destruct (setupGTFSValues _ _) as [v|e]; [|exact H].
    intros H1 H2. apply H. apply String.eqb_neq in H1. rewrite H1, H2. reflexivity.
Qed.

(** ** Further properties of the client *)

(** X1: in every route direction of a successfully cooked
    [GetNextTripsForStop] answer, the request processing time lies in the
    zone [time.LoadLocation("America/Toronto")] gave, and its fields are in
    range: year 0 to 9999, month 1 to 12, a day of that month, hour below
    24, minute and second below 60, nanoseconds below one second. *)
Theorem cooked_processing_times_in_range (ParseFloat : string -> result float)
  (LoadLocation : string -> result Location) (d : rawNextTripsForStop.t)
  (c : NextTripsForStop.t) (H : cookNextTripsForStop ParseFloat LoadLocation d = Ok c) :
  Forall (fun crd =>
    LoadLocation "America/Toronto" = Ok (loc (RouteDirection.RequestProcessingTime crd)) /\
    (0 <= year (RouteDirection.RequestProcessingTime crd) <= 9999)%Z /\
    (1 <= month (RouteDirection.RequestProcessingTime crd) <= 12)%Z /\
    (1 <= day (RouteDirection.RequestProcessingTime crd)
       <= daysIn (month (RouteDirection.RequestProcessingTime crd))
                 (year (RouteDirection.RequestProcessingTime crd)))%Z /\
    (0 <= hour (RouteDirection.RequestProcessingTime crd) < 24)%Z /\
    (0 <= minute (RouteDirection.RequestProcessingTime crd) < 60)%Z /\
    (0 <= second (RouteDirection.RequestProcessingTime crd) < 60)%Z /\
    (0 <= nsec (RouteDirection.RequestProcessingTime crd) < 10 ^ 9)%Z)
    (NextTripsForStop.RouteDirections c).
Proof.
  apply cookNextTripsForStop_ok in H as (_ & _ & _ & H).
  induction H as [|rd crd rds crds Hrd _ IH]; constructor; [|exact IH].
  apply cookRouteDirection_ok in Hrd as (tz & Htz & _ & _ & _ & _ & Hp & _).
  apply parseTime14_ranges in Hp as (H1 & H2 & H3 & H4 & H5 & H6 & H7 & Hl).
  rewrite Hl. auto 10.
Qed.

Lemma cooked_processing_times_in_range_witness :
  exists c, cookNextTripsForStop ParseFloatExample LoadLocationExample nextTripsExample = Ok c /\
  Forall (fun crd =>
    LoadLocationExample "America/Toronto" = Ok (loc (RouteDirection.RequestProcessingTime crd)) /\
    (0 <= year (RouteDirection.RequestProcessingTime crd) <= 9999)%Z /\
    (1 <= month (RouteDirection.RequestProcessingTime crd) <= 12)%Z /\
    (1 <= day (RouteDirection.RequestProcessingTime crd)
       <= daysIn (month (RouteDirection.RequestProcessingTime crd))
                 (year (RouteDirection.RequestProcessingTime crd)))%Z /\
    (0 <= hour (RouteDirection.RequestProcessingTime crd) < 24)%Z /\
    (0 <= minute (RouteDirection.RequestProcessingTime crd) < 60)%Z /\
    (0 <= second (RouteDirection.RequestProcessingTime crd) < 60)%Z /\
    (0 <= nsec (RouteDirection.RequestProcessingTime crd) < 10 ^ 9)%Z)
    (NextTripsForStop.RouteDirections c).
Proof.
  eexists. split; [reflexivity|].
  apply (cooked_processing_times_in_range ParseFloatExample LoadLocationExample nextTripsExample).
  reflexivity.
Defined.

Lemma VGet_VSet (k x : string) (m : Values) : VGet k (VSet k x m) = x.
Proof. unfold VGet, VSet. rewrite lookup_insert_eq. reflexivity. Qed.

Lemma formatDigits_spec (fuel : nat) (u : Z) (acc : string) :
  (0 <= u < 10 ^ Z.of_nat (S fuel))%Z ->
  exists c r, formatDigits (S fuel) u acc = String c r /\ isDigit c = true /\
              digitsAcc 0 (String c r) = digitsAcc u acc.
Proof.
  revert u acc. induction fuel as [|f IH]; intros u acc Hu.
  - cbn [formatDigits]. replace (u <? 10)%Z with true by (symmetry; apply Z.ltb_lt; simpl in Hu; lia).
    destruct (digitChar_ok (u mod 10)%Z) as [A B]; [zlia|].
    do 2 eexists. split; [reflexivity|]. split; [exact A|].
    cbn [digitsAcc]. rewrite A, B. f_equal. zlia.
  - change (formatDigits (S (S f)) u acc) with
      (if (u <? 10)%Z then String (digitChar (u mod 10)%Z) acc
       else formatDigits (S f) (u / 10)%Z (String (digitChar (u mod 10)%Z) acc)).
    destruct (digitChar_ok (u mod 10)%Z) as [A B]; [zlia|].
    destruct (u <? 10)%Z eqn:Eu.
    + apply Z.ltb_lt in Eu. do 2 eexists. split; [reflexivity|]. split; [exact A|].
      cbn [digitsAcc]. rewrite A, B. f_equal. zlia.
    + apply Z.ltb_ge in Eu.
      destruct (IH (u / 10)%Z (String (digitChar (u mod 10)%Z) acc)) as (c & r & E & Hc & Hv).
      { split; [zlia|]. rewrite Nat2Z.inj_succ, Z.pow_succ_r in Hu by lia.
        apply Z.div_lt_upper_bound; lia. }
      exists c, r. split; [exact E|]. split; [exact Hc|]. rewrite Hv.
      cbn [digitsAcc]. rewrite A, B. f_equal. zlia.
Qed.

Lemma Atoi_signSplit (s : string) :
  Atoi s =
  let '(neg, digits) := signSplit s in
  match digitsVal digits with
  | None => Err (NumError "Atoi" s ErrSyntax)
  | Some n =>
      let v := (if neg then - n else n)%Z in
      if ((- 2 ^ 63 <=? v) && (v <? 2 ^ 63))%Z then Ok v
      else Err (NumError "Atoi" s ErrRange)
  end.
Proof.
  destruct s as [|c r]; [reflexivity|].
  destruct c as [[] [] [] [] [] [] [] []]; reflexivity.
Qed.

Lemma isDigit_signSplit (c : ascii) (r : string) :
  isDigit c = true -> signSplit (String c r) = (false, String c r).
Proof. destruct c as [[] [] [] [] [] [] [] []]; try discriminate; reflexivity. Qed.

(** X3: [Limit(n)] never fails, and for every [n] in the [int64] range
    the [limit] parameter it sets reads back as [n] through
    [strconv.Atoi]; it leaves every other key of the map as it was. *)
Theorem Limit_Atoi_roundtrip (n : Z) (v : Values)
  (Hn : (- 2 ^ 63 <= n < 2 ^ 63)%Z) :
  snd (Limit n v) = None /\
  Atoi (VGet "limit" (fst (Limit n v))) = Ok n /\
  (forall k, k <> "limit" -> fst (Limit n v) !! k = v !! k).
Proof.
  split; [reflexivity|]. split.
  - replace (VGet "limit" (fst (Limit n v))) with (Itoa n)
      by (symmetry; apply VGet_VSet).
    rewrite Atoi_signSplit. unfold Itoa.
    destruct (n <? 0)%Z eqn:En.
    + apply Z.ltb_lt in En.
      destruct (formatDigits_spec 19 (- n)%Z EmptyString) as (c & r & E & Hc & Hv).
      { split; [lia|]. simpl. lia. }
      change 20%nat with (S 19). rewrite E. cbn [signSplit Ascii.eqb Bool.eqb].
      unfold digitsVal. rewrite Hv. cbn [digitsAcc].
      replace (- - n)%Z with n by lia.
      replace ((- 2 ^ 63 <=? n) && (n <? 2 ^ 63))%Z with true; [reflexivity|].
      symmetry. apply andb_true_iff. split; [apply Z.leb_le|apply Z.ltb_lt]; lia.
    + apply Z.ltb_ge in En.
      destruct (formatDigits_spec 19 n EmptyString) as (c & r & E & Hc & Hv).
      { split; [lia|]. simpl. lia. }
      change 20%nat with (S 19). rewrite E, isDigit_signSplit by exact Hc.
      unfold digitsVal. rewrite Hv. cbn [digitsAcc].
      replace ((- 2 ^ 63 <=? n) && (n <? 2 ^ 63))%Z with true; [reflexivity|].
      symmetry. apply andb_true_iff. split; [apply Z.leb_le|apply Z.ltb_lt]; lia.
  - intros k Hk. unfold Limit. cbn [fst]. unfold VSet.
    apply lookup_insert_ne. congruence.
Qed.

Lemma Limit_Atoi_roundtrip_witness :
  VGet "limit" (fst (Limit (-9223372036854775808) ∅)) = "-9223372036854775808" /\
  snd (Limit (-9223372036854775808) ∅) = None /\
  Atoi (VGet "limit" (fst (Limit (-9223372036854775808) ∅))) = Ok (-9223372036854775808)%Z /\
  (forall k, k <> "limit" -> fst (Limit (-9223372036854775808) ∅) !! k = (∅ : Values) !! k).
Proof.
  split; [vm_compute; reflexivity|].
  apply (Limit_Atoi_roundtrip (-9223372036854775808) ∅). lia.
Defined.


Lemma ParseQuery_Encode_lookup (m : Values) :
  snd (ParseQuery (Encode m)) = None /\
  forall k, fst (ParseQuery (Encode m)) !! k = nonEmpty (m !! k).
Proof.
  rewrite Encode_pairs, ParseQuery_concat. split; [reflexivity|]. intros k.
  cbn [fst]. rewrite foldl_addPair_lookup. unfold encodedPairs.
  rewrite valuesFor_keys by apply sortedKeys_NoDup.
  destruct (in_dec string_dec k (sortedKeys m)) as [Hin|Hin].
  - apply sortedKeys_In in Hin as [l Hl]. rewrite Hl. simpl.
    rewrite lookup_empty. destruct l; reflexivity.
  - rewrite lookup_empty. destruct (m !! k) eqn:E; [|reflexivity].
    exfalso. apply Hin, sortedKeys_In. rewrite E. eexists; reflexivity.
Qed.

Lemma ParseQuery_Encode_exact (m : Values) :
  (forall k, m !! k <> Some []) -> ParseQuery (Encode m) = (m, None).
Proof.
  intros Hne. destruct (ParseQuery_Encode_lookup m) as [Hn Hl].
  destruct (ParseQuery (Encode m)) as [m' err]. simpl in Hn, Hl. subst err. f_equal.
  apply map_eq. intros k. rewrite Hl. specialize (Hne k).
  destruct (m !! k) as [[|x l]|]; [congruence|reflexivity|reflexivity].
Qed.

Lemma VSet_nonempty (k x : string) (m : Values) :
  (forall k', m !! k' <> Some []) -> forall k', VSet k x m !! k' <> Some [].
Proof.
  intros Hm k'. unfold VSet. destruct (String.eq_dec k k') as [->|Hne].
  - rewrite lookup_insert_eq. discriminate.
  - rewrite lookup_insert_ne by exact Hne. apply Hm.
Qed.

Lemma VGet_VSet_ne (k k' x : string) (m : Values) :
  k <> k' -> VGet k' (VSet k x m) = VGet k' m.
Proof. intros H. unfold VGet, VSet. rewrite lookup_insert_ne by exact H. reflexivity. Qed.

Lemma applyOptions_app (o1 o2 : list QueryOption) (v : Values) :
  applyOptions (o1 ++ o2) v = let? v' := applyOptions o1 v in applyOptions o2 v'.
Proof.
  revert v. induction o1 as [|o o1 IH]; intros v; [reflexivity|].
  simpl. destruct (o v) as [v' [e|]]; [reflexivity|]. apply IH.
Qed.

(** X4: the query of the URL [setupGTFSURL] builds reads back through
    [url.ParseQuery] without error, and gives every key the values the
    options put in the map (a key with no value is dropped). *)
Theorem setupGTFSURL_query_roundtrip (c : Connection) (opts : list QueryOption) (u : URL)
  (Hu : setupGTFSURL c opts = Ok u) :
  exists v, setupGTFSValues c opts = Ok v /\ URLBase u = APIURLPrefix ++ "Gtfs" /\
    snd (ParseQuery (RawQuery u)) = None /\
    forall k, fst (ParseQuery (RawQuery u)) !! k = nonEmpty (v !! k).
Proof.
  revert Hu. unfold setupGTFSURL.
  destruct (setupGTFSValues c opts) as [v|e]; simpl; [|discriminate].
  intros H. injection H as <-. exists v. simpl. split; [reflexivity|]. split; [reflexivity|].
  apply ParseQuery_Encode_lookup.
Qed.

Lemma setupGTFSURL_query_roundtrip_witness :
  setupGTFSURL (mkConnection "id" "key") [ID "a&b=c"]
    = Ok (mkURL "https://api.octranspo1.com/v1.2/Gtfs" "apiKey=key&appID=id&format=json&id=a%26b%3Dc") /\
  exists v, setupGTFSValues (mkConnection "id" "key") [ID "a&b=c"] = Ok v /\
    URLBase (mkURL "https://api.octranspo1.com/v1.2/Gtfs" "apiKey=key&appID=id&format=json&id=a%26b%3Dc")
      = APIURLPrefix ++ "Gtfs" /\
    snd (ParseQuery "apiKey=key&appID=id&format=json&id=a%26b%3Dc") = None /\
    forall k, fst (ParseQuery "apiKey=key&appID=id&format=json&id=a%26b%3Dc") !! k = nonEmpty (v !! k).
Proof.
  assert (H : setupGTFSURL (mkConnection "id" "key") [ID "a&b=c"]
    = Ok (mkURL "https://api.octranspo1.com/v1.2/Gtfs" "apiKey=key&appID=id&format=json&id=a%26b%3Dc"))
    by (vm_compute; reflexivity).
  split; [exact H|].
  exact (setupGTFSURL_query_roundtrip (mkConnection "id" "key") [ID "a&b=c"] _ H).
Defined.

Lemma packageOption_step (o : QueryOption) (v : Values) :
  packageOption o ->
  exists v', o v = (v', None) /\ forall k, In k credKeys -> VGet k v' = VGet k v.
Proof.
  intros [[i ->]|[[col [val ->]]|[[s ->]|[[n ->]|[->| ->]]]]].
  - eexists; split; [reflexivity|]. intros k Hk. apply VGet_VSet_ne.
    intros <-. unfold credKeys in Hk; simpl in Hk; intuition discriminate.
  - eexists; split; [reflexivity|]. intros k Hk. rewrite !VGet_VSet_ne; [reflexivity| |];
    intros <-; unfold credKeys in Hk; simpl in Hk; intuition discriminate.
  - eexists; split; [reflexivity|]. intros k Hk. apply VGet_VSet_ne.
    intros <-. unfold credKeys in Hk; simpl in Hk; intuition discriminate.
  - eexists; split; [reflexivity|]. intros k Hk. apply VGet_VSet_ne.
    intros <-. unfold credKeys in Hk; simpl in Hk; intuition discriminate.
  - eexists; split; [reflexivity|]. intros k Hk. apply VGet_VSet_ne.
    intros <-. unfold credKeys in Hk; simpl in Hk; intuition discriminate.
  - eexists; split; [reflexivity|]. intros k Hk. apply VGet_VSet_ne.
    intros <-. unfold credKeys in Hk; simpl in Hk; intuition discriminate.
Qed.

Lemma applyOptions_package (opts : list QueryOption) (v : Values) :
  Forall packageOption opts ->
  exists v', applyOptions opts v = Ok v' /\ forall k, In k credKeys -> VGet k v' = VGet k v.
Proof.
  revert v. induction opts as [|o opts IH]; intros v Hf.
  - exists v. split; [reflexivity|]. reflexivity.
  - inversion Hf as [|? ? Ho Hf']; subst.
    destruct (packageOption_step o v Ho) as (v1 & E1 & H1).
    destruct (IH v1 Hf') as (v2 & E2 & H2).
    exists v2. split; [simpl; rewrite E1; exact E2|].
    intros k Hk. rewrite H2, H1 by exact Hk. reflexivity.
Qed.

(** X5: whatever options of the package a GTFS call is given, they all
    succeed, and the query still carries the connection's [appID] and
    [apiKey], [format=json] and the call's table. *)
Theorem package_options_keep_credentials (c : Connection) (opts : list QueryOption)
  (t : string) (Hopts : Forall packageOption opts) :
  exists v, setupGTFSValues c (opts ++ [setTable t]) = Ok v /\
    VGet "appID" v = ConnID c /\ VGet "apiKey" v = ConnKey c /\
    VGet "format" v = "json" /\ VGet "table" v = t.
Proof.
  unfold setupGTFSValues. rewrite applyOptions_app.
  destruct (applyOptions_package opts
    (VSet "format" "json" (VSet "apiKey" (ConnKey c) (VSet "appID" (ConnID c) ∅))) Hopts)
    as (v' & E & Hk).
  rewrite E. simpl. exists (VSet "table" t v'). split; [reflexivity|].
  split; [|split; [|split]].
  all: try (rewrite VGet_VSet_ne by discriminate; rewrite Hk by (unfold credKeys; simpl; tauto)).
  all: repeat first [rewrite VGet_VSet | rewrite VGet_VSet_ne by discriminate]; reflexivity.
Qed.

Lemma package_options_keep_credentials_witness :
  Forall packageOption [ID "7"; ColumnAndValue "stop_id" "AK145"; OrderBy "stop_name";
                        Limit 5; Direction "asc"] /\
  exists v, setupGTFSValues (mkConnection "id" "key")
      ([ID "7"; ColumnAndValue "stop_id" "AK145"; OrderBy "stop_name"; Limit 5; Direction "asc"]
       ++ [setTable "stops"]) = Ok v /\
    VGet "appID" v = "id" /\ VGet "apiKey" v = "key" /\
    VGet "format" v = "json" /\ VGet "table" v = "stops".
Proof.
  assert (Hf : Forall packageOption [ID "7"; ColumnAndValue "stop_id" "AK145";
                 OrderBy "stop_name"; Limit 5; Direction "asc"]).
  { unfold packageOption.
    repeat apply List.Forall_cons; try apply List.Forall_nil.
    - left. eexists; reflexivity.
    - right; left. do 2 eexists; reflexivity.
    - right; right; left. eexists; reflexivity.
    - right; right; right; left. eexists; reflexivity.
    - right; right; right; right; left. reflexivity. }
  split; [exact Hf|].
  exact (package_options_keep_credentials (mkConnection "id" "key") _ "stops" Hf).
Defined.

Lemma setupGTFSURL_table (c : Connection) (opts : list QueryOption) (t : string) (u : URL) :
  setupGTFSURL c (opts ++ [setTable t]) = Ok u ->
  u = mkURL (APIURLPrefix ++ "Gtfs") (RawQuery u) /\
  snd (ParseQuery (RawQuery u)) = None /\ VGet "table" (fst (ParseQuery (RawQuery u))) = t.
Proof.
  unfold setupGTFSURL, setupGTFSValues. rewrite applyOptions_app.
  destruct (applyOptions opts _) as [v|e]; simpl; [|discriminate].
  intros H. injection H as <-. simpl. split; [reflexivity|].
  destruct (ParseQuery_Encode_lookup (VSet "table" t v)) as [Hn Hl].
  split; [exact Hn|]. unfold VGet. rewrite Hl. unfold VSet. rewrite lookup_insert_eq. reflexivity.
Qed.

Lemma fetch_requestsTable {T} (decode : string -> T * option error) (c : Connection)
  (opts : list QueryOption) (t : string) (u : URL) :
  setupGTFSURL c (opts ++ [setTable t]) = Ok u -> requestsTable (fetchAndDecode decode u) t.
Proof.
  intros H. apply setupGTFSURL_table in H as (Hu & Hn & Ht).
  exists (RawQuery u). rewrite Hu at 1. auto.
Qed.

Lemma withSelector_requestsTable {T} (table : string) (ok : Values -> bool) (msg : string)
  (decode : string -> T * option error) (c : Connection) (opts : list QueryOption) :
  requestsTable (withSelector table ok msg decode c opts) table.
Proof.
  unfold withSelector. destruct (setupGTFSURL _ _) as [u|e] eqn:E; [|exact I].
  destruct (ParseQuery (RawQuery u)) as [v [e|]]; [exact I|].
  destruct (negb (ok v)); [exact I|]. eapply fetch_requestsTable; exact E.
Qed.

(** X6: each of the seven GTFS calls that reaches the network asks the
    [Gtfs] address with a query that parses without error and names the
    call's own table, whatever options the caller passed. *)
Theorem gtfs_calls_request_their_table (c : Connection) (opts : list QueryOption)
  (dA : string -> GTFSAgency * option error) (dC : string -> GTFSCalendar * option error)
  (dD : string -> GTFSCalendarDates * option error) (dR : string -> GTFSRoutes * option error)
  (dS : string -> GTFSStops * option error) (dST : string -> GTFSStopTimes * option error)
  (dT : string -> GTFSTrips * option error) :
  requestsTable (GetGTFSAgency dA c opts) "agency" /\
  requestsTable (GetGTFSCalendar dC c opts) "calendar" /\
  requestsTable (GetGTFSCalendarDates dD c opts) "calendar_dates" /\
  requestsTable (GetGTFSRoutes dR c opts) "routes" /\
  requestsTable (GetGTFSStops dS c opts) "stops" /\
  requestsTable (GetGTFSStopTimes dST c opts) "stop_times" /\
  requestsTable (GetGTFSTrips dT c opts) "trips".
Proof.
  split; [|split; [|split; [|split; [|split; [|split]]]]];
    try apply withSelector_requestsTable;
    [unfold GetGTFSAgency|unfold GetGTFSCalendar|unfold GetGTFSCalendarDates|unfold GetGTFSRoutes];
    (destruct (setupGTFSURL _ _) as [u|e] eqn:E; [eapply fetch_requestsTable; exact E|exact I]).
Qed.

(** X7: when the options give [GetGTFSStops], [GetGTFSStopTimes] or
    [GetGTFSTrips] one of the selectors it requires (an accepted column or
    an [id]), the call goes to the network with the encoded values: the
    re-parse of its own query never fails. *)
Theorem gtfs_selector_present_fetches (c : Connection) (opts : list QueryOption)
  (dS : string -> GTFSStops * option error) (dST : string -> GTFSStopTimes * option error)
  (dT : string -> GTFSTrips * option error) :
  (forall v, setupGTFSValues c (opts ++ [setTable "stops"]) = Ok v ->
     VGet "column" v = "stop_id" \/ VGet "column" v = "stop_code" \/ VGet "id" v <> "" ->
     GetGTFSStops dS c opts = fetchAndDecode dS (mkURL (APIURLPrefix ++ "Gtfs") (Encode v))) /\
  (forall v, setupGTFSValues c (opts ++ [setTable "stop_times"]) = Ok v ->
     VGet "column" v = "trip_id" \/ VGet "column" v = "stop_id" \/ VGet "id" v <> "" ->
     GetGTFSStopTimes dST c opts = fetchAndDecode dST (mkURL (APIURLPrefix ++ "Gtfs") (Encode v))) /\
  (forall v, setupGTFSValues c (opts ++ [setTable "trips"]) = Ok v ->
     VGet "column" v = "route_id" \/ VGet "id" v <> "" ->
     GetGTFSTrips dT c opts = fetchAndDecode dT (mkURL (APIURLPrefix ++ "Gtfs") (Encode v))).
Proof.
  split; [|split]; intros v Hv Hsel;
    [unfold GetGTFSStops|unfold GetGTFSStopTimes|unfold GetGTFSTrips];
    unfold withSelector, setupGTFSURL; rewrite Hv; simpl;
    destruct (ParseQuery_Encode v) as [Hn Hg];
    destruct (ParseQuery (Encode v)) as [v' err]; simpl in Hn, Hg; subst err;
    rewrite !Hg.
  - destruct Hsel as [->|[->|Hid]]; [reflexivity|reflexivity|].
    apply String.eqb_neq in Hid. rewrite Hid.
    rewrite !andb_false_r. reflexivity.
  - destruct Hsel as [->|[->|Hid]]; [reflexivity|reflexivity|].
    apply String.eqb_neq in Hid. rewrite Hid.
    rewrite !andb_false_r. reflexivity.
  - destruct Hsel as [->|Hid]; [reflexivity|].
    apply String.eqb_neq in Hid. rewrite Hid.
    rewrite !andb_false_r. reflexivity.
Qed.

Lemma Encode3 (x y z : string) :
  Encode (VSet "stopNo" z (VSet "apiKey" y (VSet "appID" x ∅))) =
  "apiKey=" ++ QueryEscape y ++ "&appID=" ++ QueryEscape x ++ "&stopNo=" ++ QueryEscape z.
Proof.
  unfold Encode.
  assert (Hk : sortedKeys (VSet "stopNo" z (VSet "apiKey" y (VSet "appID" x ∅)))
               = ["apiKey"; "appID"; "stopNo"]) by reflexivity.
  rewrite Hk. unfold VSet.
  cbn [flat_map]. 
  rewrite lookup_insert_ne by discriminate. rewrite lookup_insert_eq.
  rewrite (lookup_insert_ne _ "stopNo" "appID") by discriminate.
  rewrite (lookup_insert_ne _ "apiKey" "appID") by discriminate.
  rewrite lookup_insert_eq, lookup_insert_eq.
  cbn [default map app String.concat]. unfold encodePair.
  reflexivity.
Qed.

Lemma Encode4 (w x y z : string) :
  Encode (VSet "stopNo" z (VSet "routeNo" w (VSet "apiKey" y (VSet "appID" x ∅)))) =
  "apiKey=" ++ QueryEscape y ++ "&appID=" ++ QueryEscape x ++ "&routeNo=" ++ QueryEscape w
    ++ "&stopNo=" ++ QueryEscape z.
Proof.
  unfold Encode.
  assert (Hk : sortedKeys (VSet "stopNo" z (VSet "routeNo" w (VSet "apiKey" y (VSet "appID" x ∅))))
               = ["apiKey"; "appID"; "routeNo"; "stopNo"]) by reflexivity.
  rewrite Hk. unfold VSet. cbn [flat_map].
  rewrite (lookup_insert_ne _ "stopNo" "apiKey") by discriminate.
  rewrite (lookup_insert_ne _ "routeNo" "apiKey") by discriminate.
  rewrite (lookup_insert_ne _ "stopNo" "appID") by discriminate.
  rewrite (lookup_insert_ne _ "routeNo" "appID") by discriminate.
  rewrite (lookup_insert_ne _ "apiKey" "appID") by discriminate.
  rewrite (lookup_insert_ne _ "stopNo" "routeNo") by discriminate.
  rewrite !lookup_insert_eq.
  cbn [default map app String.concat]. unfold encodePair. reflexivity.
Qed.

Lemma empty_nonempty (k : string) : (∅ : Values) !! k <> Some [].
Proof. rewrite lookup_empty. discriminate. Qed.

Lemma xmlCall_request {R C} (cAPIURLPrefix : string) (urlParse : string -> result URL)
  (method : string) (v : Values) (decode : string -> result R) (cook : R -> result C) :
  match urlParse (cAPIURLPrefix ++ method) with
  | Err e => xmlCall cAPIURLPrefix urlParse method v decode cook = Answer (Err e)
  | Ok u => exists k, xmlCall cAPIURLPrefix urlParse method v decode cook
                      = PostForm (URLString u) (Encode v) k /\
              forall e, k (Err e) = Answer (Err e)
  end.
Proof.
  unfold xmlCall. destruct (urlParse _) as [u|e]; [|reflexivity].
  eexists. split; [reflexivity|]. reflexivity.
Qed.

(** X8: when [url.Parse] of the address fails, each XML endpoint returns
    that error without a request; otherwise it POSTs to that address the
    form [apiKey], [appID], ([routeNo],) [stopNo], in that order and
    query-escaped, which decodes back to exactly those four (or three)
    values. *)
Theorem xml_endpoints_post_credentials (cAPIURLPrefix : string) (urlParse : string -> result URL)
  (ParseFloat : string -> result float) (LoadLocation : string -> result Location)
  (dS : string -> result rawRouteSummaryForStop.t) (dN : string -> result rawNextTripsForStop.t)
  (dA : string -> result rawNextTripsForStopAllRoutes.t)
  (c : Connection) (routeNo stopNo : string) :
  match urlParse (cAPIURLPrefix ++ "GetRouteSummaryForStop") with
  | Err e => GetRouteSummaryForStop cAPIURLPrefix urlParse dS c stopNo = Answer (Err e)
  | Ok u => exists k, GetRouteSummaryForStop cAPIURLPrefix urlParse dS c stopNo =
        PostForm (URLString u) ("apiKey=" ++ QueryEscape (ConnKey c) ++ "&appID=" ++
          QueryEscape (ConnID c) ++ "&stopNo=" ++ QueryEscape stopNo) k /\
      ParseQuery ("apiKey=" ++ QueryEscape (ConnKey c) ++ "&appID=" ++
          QueryEscape (ConnID c) ++ "&stopNo=" ++ QueryEscape stopNo) =
        (VSet "stopNo" stopNo (VSet "apiKey" (ConnKey c) (VSet "appID" (ConnID c) ∅)), None)
  end /\
  match urlParse (cAPIURLPrefix ++ "GetNextTripsForStop") with
  | Err e => GetNextTripsForStop ParseFloat LoadLocation cAPIURLPrefix urlParse dN c routeNo stopNo
             = Answer (Err e)
  | Ok u => exists k, GetNextTripsForStop ParseFloat LoadLocation cAPIURLPrefix urlParse dN c routeNo stopNo =
        PostForm (URLString u) ("apiKey=" ++ QueryEscape (ConnKey c) ++ "&appID=" ++
          QueryEscape (ConnID c) ++ "&routeNo=" ++ QueryEscape routeNo ++ "&stopNo=" ++
          QueryEscape stopNo) k /\
      ParseQuery ("apiKey=" ++ QueryEscape (ConnKey c) ++ "&appID=" ++
          QueryEscape (ConnID c) ++ "&routeNo=" ++ QueryEscape routeNo ++ "&stopNo=" ++
          QueryEscape stopNo) =
        (VSet "stopNo" stopNo (VSet "routeNo" routeNo
           (VSet "apiKey" (ConnKey c) (VSet "appID" (ConnID c) ∅))), None)
  end /\
  match urlParse (cAPIURLPrefix ++ "GetNextTripsForStopAllRoutes") with
  | Err e => GetNextTripsForStopAllRoutes ParseFloat cAPIURLPrefix urlParse dA c stopNo = Answer (Err e)
  | Ok u => exists k, GetNextTripsForStopAllRoutes ParseFloat cAPIURLPrefix urlParse dA c stopNo =
        PostForm (URLString u) ("apiKey=" ++ QueryEscape (ConnKey c) ++ "&appID=" ++
          QueryEscape (ConnID c) ++ "&stopNo=" ++ QueryEscape stopNo) k /\
      ParseQuery ("apiKey=" ++ QueryEscape (ConnKey c) ++ "&appID=" ++
          QueryEscape (ConnID c) ++ "&stopNo=" ++ QueryEscape stopNo) =
        (VSet "stopNo" stopNo (VSet "apiKey" (ConnKey c) (VSet "appID" (ConnID c) ∅)), None)
  end.
Proof.
  rewrite <- Encode3, <- Encode4.
  assert (H3 : forall x y z, ParseQuery (Encode (VSet "stopNo" z (VSet "apiKey" y (VSet "appID" x ∅))))
                 = (VSet "stopNo" z (VSet "apiKey" y (VSet "appID" x ∅)), None)).
  { intros. apply ParseQuery_Encode_exact.
    repeat apply VSet_nonempty. apply empty_nonempty. }
  assert (H4 : forall w x y z, ParseQuery (Encode (VSet "stopNo" z (VSet "routeNo" w
                   (VSet "apiKey" y (VSet "appID" x ∅)))))
                 = (VSet "stopNo" z (VSet "routeNo" w (VSet "apiKey" y (VSet "appID" x ∅))), None)).
  { intros. apply ParseQuery_Encode_exact.
    repeat apply VSet_nonempty. apply empty_nonempty. }
  split; [|split].
  - unfold GetRouteSummaryForStop.
    pose proof (xmlCall_request cAPIURLPrefix urlParse "GetRouteSummaryForStop"
      (VSet "stopNo" stopNo (VSet "apiKey" (ConnKey c) (VSet "appID" (ConnID c) ∅)))
      dS cookRouteSummaryForStop) as H.
    destruct (urlParse _); [destruct H as [k [Hk _]]; exists k; split; [exact Hk|apply H3]|exact H].
  - unfold GetNextTripsForStop.
    pose proof (xmlCall_request cAPIURLPrefix urlParse "GetNextTripsForStop"
      (VSet "stopNo" stopNo (VSet "routeNo" routeNo
         (VSet "apiKey" (ConnKey c) (VSet "appID" (ConnID c) ∅))))
      dN (cookNextTripsForStop ParseFloat LoadLocation)) as H.
    destruct (urlParse _); [destruct H as [k [Hk _]]; exists k; split; [exact Hk|apply H4]|exact H].
  - unfold GetNextTripsForStopAllRoutes.
    pose proof (xmlCall_request cAPIURLPrefix urlParse "GetNextTripsForStopAllRoutes"
      (VSet "stopNo" stopNo (VSet "apiKey" (ConnKey c) (VSet "appID" (ConnID c) ∅)))
      dA (cookNextTripsForStopAllRoutes ParseFloat)) as H.
    destruct (urlParse _); [destruct H as [k [Hk _]]; exists k; split; [exact Hk|apply H3]|exact H].
Qed.

(** X9: in the earlier [gtfs.go], [GTFSAgency] returns an option's error
    at once, refuses a column without a value before any request, and any
    request it makes has a query in which a column always comes with a
    value. *)
Theorem gtfs_go_agency_column_needs_value (decode : string -> gtfs_go.GTFSAgencyData * option error)
  (c : Connection) (opts : list QueryOption) :
  match applyOptions opts (VSet "table" "agency" (gtfs_go.setupQuery c)) with
  | Err e => gtfs_go.GTFSAgency decode c opts = Done (None, Some e)
  | Ok q =>
      (VGet "column" q <> "" -> VGet "value" q = "" ->
       gtfs_go.GTFSAgency decode c opts =
         Done (None, Some (ConfigError "If a column is specified, a value must also be specified.")))
  end /\
  match gtfs_go.GTFSAgency decode c opts with
  | Fetch url _ => exists q, url = URLString (mkURL (APIURLPrefix ++ "Gtfs") q) /\
      snd (ParseQuery q) = None /\
      (VGet "column" (fst (ParseQuery q)) = "" \/ VGet "value" (fst (ParseQuery q)) <> "")
  | Done _ => True
  end.
Proof.
  unfold gtfs_go.GTFSAgency. destruct (applyOptions _ _) as [q|e]; [|split; [reflexivity|exact I]].
  split.
  - intros Hc Hv. apply String.eqb_neq in Hc. rewrite Hc, Hv. reflexivity.
  - destruct (negb _ && _) eqn:E; [exact I|].
    exists (Encode q). split; [reflexivity|].
    destruct (ParseQuery_Encode q) as [Hn Hg]. split; [exact Hn|]. rewrite !Hg.
    destruct (String.eqb (VGet "column" q) "") eqn:Ec; [left; apply String.eqb_eq, Ec|].
    right. intros Hv. rewrite Hv in E. simpl in E. discriminate.
Qed.

(** X10: when the top-level [Error] of an answer is one of the failure
    codes, each of the three cooks returns exactly the error
    [checkErrorCode] gives for it, whatever the routes, directions and
    trips hold. *)
Theorem cooks_report_top_level_error (ParseFloat : string -> result float)
  (LoadLocation : string -> result Location) (s : string) (e : error)
  (He : snd (checkErrorCode s) = Some e) :
  (forall d, rawRouteSummaryForStop.Error d = s -> cookRouteSummaryForStop d = Err e) /\
  (forall d, rawNextTripsForStop.Error d = s ->
     cookNextTripsForStop ParseFloat LoadLocation d = Err e) /\
  (forall d, rawNextTripsForStopAllRoutes.Error d = s ->
     cookNextTripsForStopAllRoutes ParseFloat d = Err e).
Proof.
  assert (H : checkErrorCodeR s = Err e).
  { unfold checkErrorCodeR. destruct (checkErrorCode s) as [t [e'|]]; simpl in He; congruence. }
  split; [|split]; intros d Hd;
    [unfold cookRouteSummaryForStop|unfold cookNextTripsForStop|unfold cookNextTripsForStopAllRoutes];
    rewrite Hd, H; reflexivity.
Qed.

Lemma checkErrorCodeR_err_sentinel (s : string) : isErr (checkErrorCodeR s) -> In s sentinelCodes.
Proof.
  unfold checkErrorCodeR. rewrite checkErrorCode_eq. unfold sentinelCodes.
  repeat match goal with |- context [String.eqb ?a ?b] =>
    destruct (String.eqb_spec a b) as [->|]; [intros _; simpl; tauto|] end.
  intros [].
Qed.

Lemma isErr_rbind {A B} (r : result A) (k : A -> result B) :
  (forall a, ~ isErr (k a)) -> isErr (rbind r k) <-> isErr r.
Proof. intros Hk. destruct r as [a|e]; simpl; [split; [apply Hk|intros []]|tauto]. Qed.

(** X11: cooking a [GetRouteSummaryForStop] answer fails exactly when its
    [Error] is one of the failure codes. *)
Theorem route_summary_fails_only_on_sentinel (d : rawRouteSummaryForStop.t) :
  isErr (cookRouteSummaryForStop d) <-> In (rawRouteSummaryForStop.Error d) sentinelCodes.
Proof.
  unfold cookRouteSummaryForStop. rewrite isErr_rbind by (intros a []).
  split; [apply checkErrorCodeR_err_sentinel|apply checkErrorCodeR_sentinel].
Qed.

(** X12: [time.LoadLocation] is only consulted for route directions: when
    the zone database fails, a [GetNextTripsForStop] answer with no route
    direction still cooks, and one whose first direction passes the
    error-code check fails with the [LoadLocation] error. *)
Theorem next_trips_time_zone_only_per_direction (ParseFloat : string -> result float)
  (LoadLocation : string -> result Location) (e : error)
  (HL : LoadLocation "America/Toronto" = Err e) (d : rawNextTripsForStop.t) :
  ~ In (rawNextTripsForStop.Error d) sentinelCodes ->
  (rawNextTripsForStop.RouteDirection d = [] ->
   cookNextTripsForStop ParseFloat LoadLocation d =
     Ok (NextTripsForStop.mk (rawNextTripsForStop.StopNo d) (rawNextTripsForStop.StopLabel d)
           (rawNextTripsForStop.Error d) [])) /\
  (forall rd rds, rawNextTripsForStop.RouteDirection d = rd :: rds ->
   ~ In (rawRouteDirection.Error rd) sentinelCodes ->
   cookNextTripsForStop ParseFloat LoadLocation d = Err e).
Proof.
  intros Htop.
  assert (Hok : forall s, ~ In s sentinelCodes -> checkErrorCodeR s = Ok s).
  { intros s Hs. destruct (checkErrorCodeR s) as [t|e'] eqn:E.
    - apply checkErrorCodeR_ok in E. now subst.
    - exfalso. apply Hs, checkErrorCodeR_err_sentinel. rewrite E. exact I. }
  unfold cookNextTripsForStop. rewrite (Hok _ Htop). cbn [rbind]. split.
  - intros ->. reflexivity.
  - intros rd rds -> Hrd. cbn [cookRouteDirections]. unfold cookRouteDirection.
    rewrite (Hok _ Hrd). cbn [rbind]. rewrite HL. reflexivity.
Qed.

Lemma cooks_report_top_level_error_witness :
  snd (checkErrorCode "10") = Some (APIError "error returned from API - Invalid stop number") /\
  cookNextTripsForStop ParseFloatExample LoadLocationExample
    (rawNextTripsForStop.mk "3017" "TERRY FOX" "10"
       (rawNextTripsForStop.RouteDirection nextTripsExample))
  = Err (APIError "error returned from API - Invalid stop number").
Proof.
  split; [reflexivity|].
  apply (proj1 (proj2 (cooks_report_top_level_error ParseFloatExample LoadLocationExample
    "10" (APIError "error returned from API - Invalid stop number") eq_refl))).
  reflexivity.
Defined.

Lemma next_trips_time_zone_only_per_direction_witness :
  noZoneDatabase "America/Toronto" = Err (LoadLocationError "America/Toronto") /\
  cookNextTripsForStop ParseFloatExample noZoneDatabase nextTripsExample
  = Err (LoadLocationError "America/Toronto").
Proof.
  split; [reflexivity|].
  apply (proj2 (next_trips_time_zone_only_per_direction ParseFloatExample noZoneDatabase
    (LoadLocationError "America/Toronto") eq_refl nextTripsExample
    ltac:(unfold sentinelCodes; simpl; intuition discriminate))
    (hd (rawRouteDirection.mk "" "" "" "" "" []) (rawNextTripsForStop.RouteDirection nextTripsExample))
    []).
  - reflexivity.
  - unfold sentinelCodes; simpl; intuition discriminate.
Defined.

Lemma gtfsGoOption_step (o : QueryOption) (v : Values) :
  gtfsGoOption o -> forall k, In k credKeys -> VGet k (fst (o v)) = VGet k v.
Proof.
  intros Ho k Hk.
  assert (Hne : forall k', ~ In k' credKeys -> k' <> k)
    by (intros k' Hk' <-; exact (Hk' Hk)).
  destruct Ho as [[i ->]|[[col ->]|[[val ->]|[[s ->]|[[dir ->]|[n ->]]]]]];
    cbn [gtfs_go.ID gtfs_go.Column gtfs_go.Value gtfs_go.Direction gtfs_go.Limit fst].
  all: try (apply VGet_VSet_ne, Hne; unfold credKeys; simpl; intuition discriminate).
  unfold gtfs_go.OrderBy. destruct (negb _ && negb _); cbn [fst]; [reflexivity|].
  apply VGet_VSet_ne, Hne. unfold credKeys; simpl; intuition discriminate.
Qed.

Lemma applyOptions_gtfsGo (opts : list QueryOption) (v v' : Values) :
  Forall gtfsGoOption opts -> applyOptions opts v = Ok v' ->
  forall k, In k credKeys -> VGet k v' = VGet k v.
Proof.
  revert v. induction opts as [|o opts IH]; intros v Hf Ha k Hk.
  - injection Ha as <-. reflexivity.
  - inversion Hf as [|? ? Ho Hf']; subst. simpl in Ha.
    pose proof (gtfsGoOption_step o v Ho k Hk) as Hs.
    destruct (o v) as [v1 [e|]]; [discriminate|]. cbn [fst] in Hs.
    rewrite (IH v1 Hf' Ha k Hk). exact Hs.
Qed.

(** X13: with options built by the constructors of [gtfs.go], any request
    [GTFSAgency] makes has a query that parses without error and asks for
    the [agency] table with the connection's [appID] and [apiKey] and
    [format=json]: none of those options touches these keys. *)
Theorem gtfs_go_options_keep_table (decode : string -> gtfs_go.GTFSAgencyData * option error)
  (c : Connection) (opts : list QueryOption) (Hopts : Forall gtfsGoOption opts) :
  match gtfs_go.GTFSAgency decode c opts with
  | Fetch url _ => exists q, url = URLString (mkURL (APIURLPrefix ++ "Gtfs") q) /\
      snd (ParseQuery q) = None /\
      VGet "table" (fst (ParseQuery q)) = "agency" /\
      VGet "appID" (fst (ParseQuery q)) = ConnID c /\
      VGet "apiKey" (fst (ParseQuery q)) = ConnKey c /\
      VGet "format" (fst (ParseQuery q)) = "json"
  | Done _ => True
  end.
Proof.
  unfold gtfs_go.GTFSAgency.
  destruct (applyOptions opts _) as [q|e] eqn:Ea; [|exact I].
  pose proof (applyOptions_gtfsGo opts _ q Hopts Ea) as Hk.
  destruct (negb _ && _); [exact I|].
  exists (Encode q). split; [reflexivity|].
  destruct (ParseQuery_Encode q) as [Hn Hg]. split; [exact Hn|]. rewrite !Hg.
  rewrite !Hk by (unfold credKeys; simpl; tauto).
  unfold gtfs_go.setupQuery.
  repeat first [rewrite VGet_VSet | rewrite VGet_VSet_ne by discriminate].
  repeat split.
Qed.

Lemma gtfs_go_options_keep_table_witness :
  Forall gtfsGoOption [gtfs_go.Column "stop_id"; gtfs_go.Value "AK145"; gtfs_go.Limit 3] /\
  match gtfs_go.GTFSAgency decodeAgencyExample (mkConnection "id" "key")
          [gtfs_go.Column "stop_id"; gtfs_go.Value "AK145"; gtfs_go.Limit 3] with
  | Fetch url _ => url = "https://api.octranspo1.com/v1.2/Gtfs?apiKey=key&appID=id&column=stop_id&format=json&limit=3&table=agency&value=AK145"
  | Done _ => False
  end /\
  match gtfs_go.GTFSAgency decodeAgencyExample (mkConnection "id" "key")
          [gtfs_go.Column "stop_id"; gtfs_go.Value "AK145"; gtfs_go.Limit 3] with
  | Fetch url _ => exists q, url = URLString (mkURL (APIURLPrefix ++ "Gtfs") q) /\
      snd (ParseQuery q) = None /\
      VGet "table" (fst (ParseQuery q)) = "agency" /\
      VGet "appID" (fst (ParseQuery q)) = "id" /\
      VGet "apiKey" (fst (ParseQuery q)) = "key" /\
      VGet "format" (fst (ParseQuery q)) = "json"
  | Done _ => True
  end.
Proof.
  assert (Hf : Forall gtfsGoOption [gtfs_go.Column "stop_id"; gtfs_go.Value "AK145"; gtfs_go.Limit 3]).
  { unfold gtfsGoOption.
    repeat apply List.Forall_cons; try apply List.Forall_nil.
    - right; left. eexists; reflexivity.
    - right; right; left. eexists; reflexivity.
    - right; right; right; right; right. eexists; reflexivity. }
  split; [exact Hf|]. split; [vm_compute; reflexivity|].
  exact (gtfs_go_options_keep_table decodeAgencyExample (mkConnection "id" "key") _ Hf).
Defined.
